(** * Disentangle drivers for truncation-error minimisation

    A shallow embedding of [src/utility/disentangle/disentangle_trunc_error.py]:
    the four drivers [disentangle_CG], [disentangle_approx_CG],
    [disentangle_TRM], [disentangle_approx_TRM] and the two dispatchers
    [disentangle] and [disentangle_approx].

    The drivers are orchestration code.  They read [theta.shape], build the
    identity [U0], hand a closure and a manifold to an optimizer engine, run
    it, write diagnostics into the caller's [debug_dict] and return.  The
    objects the caller owns ([theta], [debug_dict]) live in a [store]; every
    driver is a computation in a state-and-exception monad over that store.
    The engines, the debug-level predicate and the iterate classes are
    imported from sibling modules; they enter as a record of collaborators. *)

From Stdlib Require Import ZArith PrimFloat.
From stdpp Require Import gmap strings list fin_maps.

Set Warnings "-clear-no-such-hyp".

Open Scope Z_scope.
Open Scope nat_scope.

(** ** Python values *)

(** [np.complex128]: a pair of IEEE doubles. *)
Record complex128 := Complex { re : float; im : float }.

(** A numpy array: its shape and its entries in row-major (C) order. *)
Record ndarray (T : Type) := NdArray { shape : list nat; data : list T }.
Arguments NdArray {T} shape data.
Arguments shape {T} _.
Arguments data {T} _.

(** A keyword argument of a call: left out (the callee's default applies)
    or supplied. *)
Inductive kwarg (A : Type) : Type :=
| Omitted
| Given (a : A).
Arguments Omitted {A}.
Arguments Given {A} a.

(** The three iterate classes of [truncErrorIterate] the drivers instantiate. *)
Inductive IterateClass := ClsCG | ClsTRM | ClsApproxTRM.

(** Python objects that flow through the drivers.  An iterate object is
    represented by the class and the arguments of the constructor call that
    built it: the classes themselves live in [truncErrorIterate], and all
    that this module decides about an iterate is how it is constructed. *)
#[warnings="-register-all"]
Inductive pyval :=
| PNone
| PBool (b : bool)
| PInt (z : Z)
| PFloat (f : float)
| PStr (s : string)
| PList (l : list pyval)
| PArray (a : ndarray complex128)
| PIterate (it : Iterate)
with Iterate :=
| MkIterate (cls : IterateClass) (U theta : ndarray complex128) (chi : pyval)
    (chi_max N_iters_svd eps_svd old_iterate : kwarg pyval).

Definition it_class (it : Iterate) : IterateClass :=
  let 'MkIterate c _ _ _ _ _ _ _ := it in c.
Definition it_U (it : Iterate) : ndarray complex128 :=
  let 'MkIterate _ u _ _ _ _ _ _ := it in u.
Definition it_theta (it : Iterate) : ndarray complex128 :=
  let 'MkIterate _ _ t _ _ _ _ _ := it in t.
Definition it_chi (it : Iterate) : pyval :=
  let 'MkIterate _ _ _ c _ _ _ _ := it in c.
Definition it_chi_max (it : Iterate) : kwarg pyval :=
  let 'MkIterate _ _ _ _ c _ _ _ := it in c.
Definition it_N_iters_svd (it : Iterate) : kwarg pyval :=
  let 'MkIterate _ _ _ _ _ n _ _ := it in n.
Definition it_eps_svd (it : Iterate) : kwarg pyval :=
  let 'MkIterate _ _ _ _ _ _ e _ := it in e.
Definition it_old_iterate (it : Iterate) : kwarg pyval :=
  let 'MkIterate _ _ _ _ _ _ _ o := it in o.

(** The constructor calls as the source writes them. *)
Definition TruncErrorIterateCG (U theta : ndarray complex128) (chi : pyval)
    (chi_max N_iters_svd eps_svd old_iterate : kwarg pyval) : Iterate :=
  MkIterate ClsCG U theta chi chi_max N_iters_svd eps_svd old_iterate.

Definition TruncErrorIterateTRM (U theta : ndarray complex128) (chi : pyval) : Iterate :=
  MkIterate ClsTRM U theta chi Omitted Omitted Omitted Omitted.

Definition TruncErrorIterateApproxTRM (U theta : ndarray complex128) (chi : pyval)
    (chi_max N_iters_svd eps_svd old_iterate : kwarg pyval) : Iterate :=
  MkIterate ClsApproxTRM U theta chi chi_max N_iters_svd eps_svd old_iterate.

(** [stiefel_manifold.ComplexStiefelManifold(n=..., p=..., shape=...)]. *)
Record ComplexStiefelManifold := Manifold { mf_n : nat; mf_p : nat; mf_shape : list nat }.

(** The two members of [debug_levels.DebugLevel] the drivers name. *)
Inductive DebugLevel :=
| LOG_PER_ITERATION_DEBUG_INFO_DISENTANGLER_TRIPARTITE_DECOMPOSITION
| LOG_DISENTANGLER_TRIPARTITE_DECOMPOSITION_ITERATION_INFO.

(** Python exceptions. *)
Inductive exn :=
| ValueError
| TypeError
| AttributeError
| IndexError
| NotImplementedError (msg : string)
| EngineError (what : string).

Definition result (A : Type) : Type := exn + A.

(** A closure [lambda U, old_iterate: ...] handed to an engine. *)
Definition closure : Type := ndarray complex128 → pyval → Iterate.

(** ** numpy *)

Definition np_eye (N : nat) : ndarray float :=
  NdArray [N; N]
    (flat_map (λ r, map (λ c, if Nat.eqb r c then 1%float else 0%float) (seq 0 N)) (seq 0 N)).

Definition astype_complex128 (a : ndarray float) : ndarray complex128 :=
  NdArray (shape a) (map (λ x, Complex x 0%float) (data a)).

Definition np_reshape {T} (a : ndarray T) (newshape : list nat) : result (ndarray T) :=
  if decide (foldr Nat.mul 1 newshape = length (data a))
  then inr (NdArray newshape (data a))
  else inl ValueError.

(** ** The store, the call trace and the monad *)

Inductive EngineKind := CG | TRM.

(** Calls into the collaborating modules, in the order they happen. *)
Inductive event :=
| EvManifold (m : ComplexStiefelManifold)
| EvOptimizer (k : EngineKind) (m : ComplexStiefelManifold) (c : closure)
    (kwargs : gmap string pyval)
| EvIterate (it : Iterate)
| EvOptimize (k : EngineKind) (init : Iterate) (log_debug_info : bool).

(** [theta_obj] is the array the caller passes as [theta]; [debug_obj] is
    the caller's [debug_dict] ([None] when the argument is [None]). *)
Record store := Store {
  theta_obj : ndarray complex128;
  debug_obj : option (gmap string pyval);
  trace : list event
}.

Definition M (A : Type) : Type := store → result A * store.

Definition ret {A} (a : A) : M A := λ st, (inr a, st).
Definition raise {A} (e : exn) : M A := λ st, (inl e, st).
Definition bind {A B} (m : M A) (k : A → M B) : M B :=
  λ st, match m st with
        | (inr a, st') => k a st'
        | (inl e, st') => (inl e, st')
        end.
Definition lift {A} (r : result A) : M A := λ st, (r, st).

Notation "x <- c1 ;; c2" := (bind c1 (λ x, c2))
  (at level 100, c1 at next level, right associativity).
Notation "c1 ;;; c2" := (bind c1 (λ _, c2))
  (at level 100, right associativity).

Definition when (b : bool) (m : M unit) : M unit := if b then m else ret tt.

Definition theta_shape : M (list nat) := λ st, (inr (shape (theta_obj st)), st).
Definition get_theta : M (ndarray complex128) := λ st, (inr (theta_obj st), st).
Definition emit (e : event) : M unit :=
  λ st, (inr tt, Store (theta_obj st) (debug_obj st) (trace st ++ [e])).

Definition set_debug (d : gmap string pyval) (st : store) : store :=
  Store (theta_obj st) (Some d) (trace st).

(** [debug_dict[key] = value]. *)
Definition dict_setitem (key : string) (value : pyval) : M unit :=
  λ st, match debug_obj st with
        | Some d => (inr tt, set_debug (<[key := value]> d) st)
        | None => (inl TypeError, st)
        end.

(** Modelled from the spec: [utility.append_to_dict_list] is not part of this
    file.  The spec has per-run counters "appended to lists" under named
    keys of a mapping "from named metric to ordered sequence": the value is
    appended to the list stored under [key], and a list is started when the
    key is absent.  A non-list entry has no [append]. *)
Definition append_to_dict_list (key : string) (value : pyval) : M unit :=
  λ st, match debug_obj st with
        | Some d =>
            match d !! key with
            | None => (inr tt, set_debug (<[key := PList [value]]> d) st)
            | Some (PList l) => (inr tt, set_debug (<[key := PList (l ++ [value])]> d) st)
            | Some _ => (inl AttributeError, st)
            end
        | None => (inl TypeError, st)
        end.

(** [debug_info[i]] for an index [i >= 0].  A list or tuple gives its
    [i]-th component, a [str] the one-character string at [i], an array its
    [i]-th slice along the first axis (for an array with one axis the entry,
    kept here as an array without axes); an index past the end raises [IndexError], as does
    indexing a zero-dimensional array, and a value without items ([None], a
    number, an iterate object) raises [TypeError]. *)
Definition py_getitem (v : pyval) (i : nat) : result pyval :=
  match v with
  | PList l => match l !! i with Some x => inr x | None => inl IndexError end
  | PStr s =>
      match String.get i s with
      | Some c => inr (PStr (String c EmptyString))
      | None => inl IndexError
      end
  | PArray a =>
      match shape a with
      | [] => inl IndexError
      | n :: rest =>
          if Nat.ltb i n
          then let size := foldr Nat.mul 1 rest in
               inr (PArray (NdArray rest (take size (drop (i * size) (data a)))))
          else inl IndexError
      end
  | _ => inl TypeError
  end.

(** ** Collaborators

    The optimizer engines ([conjugate_gradients], [trust_region_method]) and
    [debug_levels.check_debug_level].  An engine is constructed from the
    manifold, the closure and the forwarded keyword arguments, and its
    [optimize] returns a tuple whose first component the drivers call
    [iterate]. *)
Record Collaborators := {
  CGO : Type;
  TRO : Type;
  ConjugateGradientsOptimizer :
    ComplexStiefelManifold → closure → gmap string pyval → result CGO;
  CG_optimize : CGO → Iterate → bool → result (pyval * pyval * pyval * pyval * pyval);
  TrustRegionOptimizer :
    ComplexStiefelManifold → closure → gmap string pyval → result TRO;
  TRM_optimize : TRO → Iterate → bool → bool → result (pyval * pyval * pyval);
  check_debug_level : option (gmap string pyval) → DebugLevel → bool
}.

(** Keyword binding of a [def f(..., name=default, ..., **kwargs)]. *)
Definition kw_arg (name : string) (dflt : pyval) (kw : gmap string pyval) : pyval :=
  default dflt (kw !! name).
Definition kw_rest (names : list string) (kw : gmap string pyval) : gmap string pyval :=
  foldr delete kw names.

Definition dquote : string := String (Ascii.ascii_of_nat 34) EmptyString.

(** ** The drivers *)

Section Drivers.

Variable env : Collaborators.

Definition debug_level (level : DebugLevel) : M bool :=
  λ st, (inr (check_debug_level env (debug_obj st) level), st).

Definition new_manifold (n p : nat) (shp : list nat) : M ComplexStiefelManifold :=
  let m := Manifold n p shp in emit (EvManifold m) ;;; ret m.

Definition new_iterate (it : Iterate) : M Iterate :=
  emit (EvIterate it) ;;; ret it.

Definition new_CG (m : ComplexStiefelManifold) (c : closure) (kwargs : gmap string pyval)
    : M (CGO env) :=
  emit (EvOptimizer CG m c kwargs) ;;; lift (ConjugateGradientsOptimizer env m c kwargs).

Definition new_TRM (m : ComplexStiefelManifold) (c : closure) (kwargs : gmap string pyval)
    : M (TRO env) :=
  emit (EvOptimizer TRM m c kwargs) ;;; lift (TrustRegionOptimizer env m c kwargs).

Definition optimize_CG (opt : CGO env) (init : Iterate) (log_debug_info : bool)
    : M (pyval * pyval * pyval * pyval * pyval) :=
  emit (EvOptimize CG init log_debug_info) ;;; lift (CG_optimize env opt init log_debug_info).

Definition optimize_TRM (opt : TRO env) (init : Iterate) (log_debug_info print_warnings : bool)
    : M (pyval * pyval * pyval) :=
  emit (EvOptimize TRM init log_debug_info) ;;;
  lift (TRM_optimize env opt init log_debug_info print_warnings).

(** [U0 = np.reshape(np.eye(D1*D2).astype(np.complex128), (D1, D2, D1, D2))]. *)
Definition initial_unitary (D1 D2 : nat) : result (ndarray complex128) :=
  np_reshape (astype_complex128 (np_eye (D1 * D2))) [D1; D2; D1; D2].

(** The closures, one per driver (lines 35, 85, 126, 183). *)
Definition construct_new_iterate_CG (theta : ndarray complex128) (chi : pyval) : closure :=
  λ U _, TruncErrorIterateCG U theta chi (Given PNone) (Given PNone) (Given (PInt 0%Z))
           (Given PNone).

Definition construct_new_iterate_approx_CG (theta : ndarray complex128)
    (chi N_iters_svd eps_svd : pyval) : closure :=
  λ U old_iterate, TruncErrorIterateCG U theta chi (Given PNone) (Given N_iters_svd)
                     (Given eps_svd) Omitted.

Definition construct_new_iterate_TRM (theta : ndarray complex128) (chi : pyval) : closure :=
  λ U _, TruncErrorIterateTRM U theta chi.

Definition construct_new_iterate_approx_TRM (theta : ndarray complex128)
    (chi chi_max N_iters_svd eps_svd : pyval) : closure :=
  λ U old_iterate, TruncErrorIterateApproxTRM U theta chi (Given chi_max) (Given N_iters_svd)
                     (Given eps_svd) (Given old_iterate).

(** Lines 40-47 and 90-97: what the CG drivers record. *)
Definition record_CG (log_debug_info : bool) (n num_restarts_not_descent num_restarts_powell
    debug_info : pyval) : M unit :=
  b <- debug_level LOG_DISENTANGLER_TRIPARTITE_DECOMPOSITION_ITERATION_INFO ;;
  when b (append_to_dict_list "N_iters_disentangler" n ;;;
          append_to_dict_list "disentangler_num_restarts_not_descent" num_restarts_not_descent ;;;
          append_to_dict_list "disentangler_num_restarts_powell" num_restarts_powell) ;;;
  when log_debug_info
    (d0 <- lift (py_getitem debug_info 0) ;; dict_setitem "disentangler_iterates" d0 ;;;
     d1 <- lift (py_getitem debug_info 1) ;; dict_setitem "disentangler_costs" d1 ;;;
     d2 <- lift (py_getitem debug_info 2) ;; dict_setitem "disentangler_step_sizes" d2).

(** Lines 131-137 and 188-194: what the TRM drivers record. *)
Definition record_TRM (log_debug_info : bool) (n debug_info : pyval) : M unit :=
  b <- debug_level LOG_DISENTANGLER_TRIPARTITE_DECOMPOSITION_ITERATION_INFO ;;
  when b (append_to_dict_list "N_iters_disentangler" n) ;;;
  when log_debug_info
    (d0 <- lift (py_getitem debug_info 0) ;; dict_setitem "disentangler_iterates" d0 ;;;
     d1 <- lift (py_getitem debug_info 1) ;; dict_setitem "disentangler_costs" d1 ;;;
     d2 <- lift (py_getitem debug_info 2) ;; dict_setitem "disentangler_deltas" d2 ;;;
     d3 <- lift (py_getitem debug_info 3) ;; dict_setitem "disentangler_tCG_iters" d3).

(** [def disentangle_CG(theta, chi, debug_dict=None, **kwargs)].  [kw] holds
    the keyword arguments of the call other than [theta], [chi] and
    [debug_dict], which are bound to the store and to [chi]. *)
Definition disentangle_CG (chi : pyval) (kw : gmap string pyval) : M pyval :=
  let kwargs := kw in
  shp <- theta_shape ;;
  match shp with
  | [_; D1; D2; _] =>
      theta <- get_theta ;;
      U0 <- lift (initial_unitary D1 D2) ;;
      let construct_new_iterate := construct_new_iterate_CG theta chi in
      manifold <- new_manifold (D1 * D2) (D1 * D2) (shape U0) ;;
      conjugateGradientsOptimizer <- new_CG manifold construct_new_iterate kwargs ;;
      log_debug_info <-
        debug_level LOG_PER_ITERATION_DEBUG_INFO_DISENTANGLER_TRIPARTITE_DECOMPOSITION ;;
      init <- new_iterate (construct_new_iterate U0 PNone) ;;
      r <- optimize_CG conjugateGradientsOptimizer init log_debug_info ;;
      let '(iterate, n, num_restarts_not_descent, num_restarts_powell, debug_info) := r in
      record_CG log_debug_info n num_restarts_not_descent num_restarts_powell debug_info ;;;
      ret iterate
  | _ => raise ValueError
  end.

(** [def disentangle_approx_CG(theta, chi, N_iters_svd=5, eps_svd=0.0,
    N_iters_svd_initial=50, debug_dict=None, **kwargs)]. *)
Definition disentangle_approx_CG (chi : pyval) (kw : gmap string pyval) : M pyval :=
  let N_iters_svd := kw_arg "N_iters_svd" (PInt 5%Z) kw in
  let eps_svd := kw_arg "eps_svd" (PFloat 0%float) kw in
  let N_iters_svd_initial := kw_arg "N_iters_svd_initial" (PInt 50%Z) kw in
  let kwargs := kw_rest ["N_iters_svd"; "eps_svd"; "N_iters_svd_initial"] kw in
  shp <- theta_shape ;;
  match shp with
  | [_; D1; D2; _] =>
      theta <- get_theta ;;
      U0 <- lift (initial_unitary D1 D2) ;;
      let construct_new_iterate :=
        construct_new_iterate_approx_CG theta chi N_iters_svd eps_svd in
      manifold <- new_manifold (D1 * D2) (D1 * D2) (shape U0) ;;
      conjugateGradientsOptimizer <- new_CG manifold construct_new_iterate kwargs ;;
      log_debug_info <-
        debug_level LOG_PER_ITERATION_DEBUG_INFO_DISENTANGLER_TRIPARTITE_DECOMPOSITION ;;
      init <- new_iterate (TruncErrorIterateCG U0 theta chi (Given PNone)
                             (Given N_iters_svd_initial) (Given eps_svd) (Given PNone)) ;;
      r <- optimize_CG conjugateGradientsOptimizer init log_debug_info ;;
      let '(iterate, n, num_restarts_not_descent, num_restarts_powell, debug_info) := r in
      record_CG log_debug_info n num_restarts_not_descent num_restarts_powell debug_info ;;;
      ret iterate
  | _ => raise ValueError
  end.

(** [def disentangle_TRM(theta, chi, debug_dict=None, **kwargs)]. *)
Definition disentangle_TRM (chi : pyval) (kw : gmap string pyval) : M pyval :=
  let kwargs := kw in
  shp <- theta_shape ;;
  match shp with
  | [_; D1; D2; _] =>
      theta <- get_theta ;;
      U0 <- lift (initial_unitary D1 D2) ;;
      let construct_new_iterate := construct_new_iterate_TRM theta chi in
      manifold <- new_manifold (D1 * D2) (D1 * D2) (shape U0) ;;
      trustRegionOptimizer <- new_TRM manifold construct_new_iterate kwargs ;;
      log_debug_info <-
        debug_level LOG_PER_ITERATION_DEBUG_INFO_DISENTANGLER_TRIPARTITE_DECOMPOSITION ;;
      init <- new_iterate (construct_new_iterate U0 PNone) ;;
      r <- optimize_TRM trustRegionOptimizer init log_debug_info false ;;
      let '(iterate, n, debug_info) := r in
      record_TRM log_debug_info n debug_info ;;;
      ret iterate
  | _ => raise ValueError
  end.

(** Lines 177-178: [if chi_max is None: chi_max = chi]. *)
Definition chi_max_or_chi (chi chi_max : pyval) : pyval :=
  match chi_max with
  | PNone => chi
  | _ => chi_max
  end.

(** [def disentangle_approx_TRM(theta, chi, chi_max=None, N_iters_svd=2,
    eps_svd=0.0, N_iters_svd_initial=50, debug_dict=None, **kwargs)]. *)
Definition disentangle_approx_TRM (chi : pyval) (kw : gmap string pyval) : M pyval :=
  let chi_max := kw_arg "chi_max" PNone kw in
  let N_iters_svd := kw_arg "N_iters_svd" (PInt 2%Z) kw in
  let eps_svd := kw_arg "eps_svd" (PFloat 0%float) kw in
  let N_iters_svd_initial := kw_arg "N_iters_svd_initial" (PInt 50%Z) kw in
  let kwargs := kw_rest ["chi_max"; "N_iters_svd"; "eps_svd"; "N_iters_svd_initial"] kw in
  let chi_max := chi_max_or_chi chi chi_max in
  shp <- theta_shape ;;
  match shp with
  | [_; D1; D2; _] =>
      theta <- get_theta ;;
      U0 <- lift (initial_unitary D1 D2) ;;
      let construct_new_iterate :=
        construct_new_iterate_approx_TRM theta chi chi_max N_iters_svd eps_svd in
      manifold <- new_manifold (D1 * D2) (D1 * D2) (shape U0) ;;
      trustRegionOptimizer <- new_TRM manifold construct_new_iterate kwargs ;;
      log_debug_info <-
        debug_level LOG_PER_ITERATION_DEBUG_INFO_DISENTANGLER_TRIPARTITE_DECOMPOSITION ;;
      init <- new_iterate (TruncErrorIterateApproxTRM U0 theta chi (Given chi_max)
                             (Given N_iters_svd_initial) (Given eps_svd) (Given PNone)) ;;
      r <- optimize_TRM trustRegionOptimizer init log_debug_info false ;;
      let '(iterate, n, debug_info) := r in
      record_TRM log_debug_info n debug_info ;;;
      ret iterate
  | _ => raise ValueError
  end.

(** The messages of the two [NotImplementedError]s (lines 225 and 256). *)
Definition unsupported_method (method : string) : string :=
  "disentangling method " +:+ dquote +:+ method +:+ dquote +:+
  " is not implemented for truncation error disentangling!".

Definition unsupported_approx_method (method : string) : string :=
  "disentangling method " +:+ dquote +:+ method +:+ dquote +:+
  " is not implemented for approximate truncation error disentangling!".

(** [def disentangle(theta, chi, method="trm", debug_dict=None, **kwargs)]. *)
Definition disentangle (chi : pyval) (method : kwarg string) (kwargs : gmap string pyval)
    : M pyval :=
  let method := match method with Given s => s | Omitted => "trm" end in
  if String.eqb method "trm" then disentangle_TRM chi kwargs
  else if String.eqb method "cg" then disentangle_CG chi kwargs
  else raise (NotImplementedError (unsupported_method method)).

(** [def disentangle_approx(theta, chi, method="cg", debug_dict=None, **kwargs)]. *)
Definition disentangle_approx (chi : pyval) (method : kwarg string)
    (kwargs : gmap string pyval) : M pyval :=
  let method := match method with Given s => s | Omitted => "cg" end in
  if String.eqb method "trm" then disentangle_approx_TRM chi kwargs
  else if String.eqb method "cg" then disentangle_approx_CG chi kwargs
  else raise (NotImplementedError (unsupported_approx_method method)).

End Drivers.

Arguments debug_level env level st /.

(** ** A sample set of collaborators

    Used to run the drivers on concrete inputs.  The sample engines keep the
    closure they were given, take one step from the initial iterate by
    calling it with the previous iterate, and follow the engine contract of
    the spec: [optimize] returns the final iterate first.  The sample
    debug-level predicate reads an integer level from the dict. *)

Definition sample_level (d : option (gmap string pyval)) : Z :=
  match d with
  | Some m => match m !! "debug_level" with Some (PInt z) => z | _ => 0%Z end
  | None => 0%Z
  end.

Definition sample_check_debug_level (d : option (gmap string pyval)) (level : DebugLevel)
    : bool :=
  match level with
  | LOG_DISENTANGLER_TRIPARTITE_DECOMPOSITION_ITERATION_INFO => Z.leb 1 (sample_level d)
  | LOG_PER_ITERATION_DEBUG_INFO_DISENTANGLER_TRIPARTITE_DECOMPOSITION =>
      Z.leb 2 (sample_level d)
  end.

Definition sample_step (c : closure) (init : Iterate) : Iterate :=
  c (it_U init) (PIterate init).

(** Modelled from the spec: the optimizer engines ([conjugate_gradients],
    [trust_region_method]) are not part of this file.  The engine contract
    of the spec is [optimize(initial_iterate, log_debug_info) ->
    (final_iterate, iteration_count, [restart_counts], [debug_info_tuple])],
    and an iterate object "couples a manifold point U with cached derived
    quantities": the sample [optimize] returns the final iterate object
    first. *)
Definition sample_env : Collaborators := {|
  CGO := closure;
  TRO := closure;
  ConjugateGradientsOptimizer := λ _ c _, inr c;
  CG_optimize := λ c init log,
    inr (PIterate (sample_step c init), PInt 1%Z, PInt 0%Z, PInt 0%Z,
         if log then PList [PList [PArray (it_U init)]; PList [PFloat 0%float]; PList []]
         else PNone);
  TrustRegionOptimizer := λ _ c _, inr c;
  TRM_optimize := λ c init log _,
    inr (PIterate (sample_step c init), PInt 1%Z,
         if log then PList [PList [PArray (it_U init)]; PList [PFloat 0%float]; PList [];
                            PList [PInt 3%Z]]
         else PNone);
  check_debug_level := sample_check_debug_level
|}.

(** A wavefunction of shape (1, 1, 1, 1) and one of shape (1, 2, 1, 1). *)
Definition theta1111 : ndarray complex128 := NdArray [1; 1; 1; 1] [Complex 1%float 0%float].
Definition theta1211 : ndarray complex128 :=
  NdArray [1; 2; 1; 1] [Complex 1%float 0%float; Complex 0%float 1%float].
(** A three-index array: not a valid [theta]. *)
Definition theta_rank3 : ndarray complex128 := NdArray [1; 1; 1] [Complex 1%float 0%float].

Definition store0 (theta : ndarray complex128) (d : option (gmap string pyval)) : store :=
  Store theta d [].

(** A caller that asks for per-run and per-iteration diagnostics, one that
    asks for none, and one whose [theta] has three axes. *)
Definition store_logging : store :=
  store0 theta1111 (Some {["debug_level" := PInt 2%Z]}).
Definition store_quiet : store := store0 theta1211 None.
Definition store_rank3 : store :=
  store0 theta_rank3 (Some {["debug_level" := PInt 2%Z]}).

(** ** Vocabulary of the statements *)

(** A relation between the store before and after that every step of a
    computation respects. *)
Definition stable {A} (R : relation store) (m : M A) : Prop :=
  ∀ st, R st (m st).2.

(** The caller's [theta] is what it was. *)
Definition same_theta : relation store := λ st st', theta_obj st' = theta_obj st.

(** Row [r] of [np.eye(N)]. *)
Definition eye_row (N r : nat) : list float :=
  map (λ c, if Nat.eqb r c then 1%float else 0%float) (seq 0 N).

(** The value of [U0]: the entries of [np.eye(D1*D2)] as complex numbers,
    viewed with shape (D1, D2, D1, D2). *)
Definition identity_tensor (D1 D2 : nat) : ndarray complex128 :=
  NdArray [D1; D2; D1; D2] (data (astype_complex128 (np_eye (D1 * D2)))).

(** Row-major position of the entry (a, b, c, d) in an array of shape
    (D1, D2, D1, D2). *)
Definition flat_index (D1 D2 a b c d : nat) : nat :=
  ((a * D2 + b) * D1 + c) * D2 + d.

(** The store after the calls [es]. *)
Definition add_events (es : list event) (st : store) : store :=
  Store (theta_obj st) (debug_obj st) (trace st ++ es).

(** The value of [log_debug_info] in a run from [st]. *)
Definition log_flag (env : Collaborators) (st : store) : bool :=
  check_debug_level env (debug_obj st)
    LOG_PER_ITERATION_DEBUG_INFO_DISENTANGLER_TRIPARTITE_DECOMPOSITION.

(** [ComplexStiefelManifold(n=D1*D2, p=D1*D2, shape=U0.shape)]. *)
Definition square_manifold (D1 D2 : nat) : ComplexStiefelManifold :=
  Manifold (D1 * D2) (D1 * D2) [D1; D2; D1; D2].

(** No call into a collaborating module has been made. *)
Definition same_trace : relation store := λ st st', trace st' = trace st.

(** The calls of one run with a well-shaped [theta]: the manifold and the
    optimizer are constructed; when the optimizer's constructor returns,
    the initial iterate is constructed and [optimize] is called on it. *)
Inductive run_calls (k : EngineKind) (m : ComplexStiefelManifold) (c : closure)
    (kwargs : gmap string pyval) (init : Iterate) (log : bool)
    : result pyval → list event → Prop :=
| run_no_optimizer e :
    run_calls k m c kwargs init log (inl e) [EvManifold m; EvOptimizer k m c kwargs]
| run_optimized out :
    run_calls k m c kwargs init log out
      [EvManifold m; EvOptimizer k m c kwargs; EvIterate init; EvOptimize k init log].

(** [evs] are the calls made between [st] and the end of the run. *)
Definition calls_of {A} (st : store) (out : A * store) (evs : list event) : Prop :=
  trace out.2 = trace st ++ evs.

(** [U0] is the N x N identity matrix, N = D1 * D2, in complex entries and
    stored row-major under the shape (D1, D2, D1, D2). *)
Definition identity_reshaped (D1 D2 : nat) (U0 : ndarray complex128) : Prop :=
  shape U0 = [D1; D2; D1; D2]
  ∧ length (data U0) = (D1 * D2) * (D1 * D2)
  ∧ ∀ row col, row < D1 * D2 → col < D1 * D2 →
      data U0 !! (row * (D1 * D2) + col)
        = Some (Complex (if decide (row = col) then 1%float else 0%float) 0%float).

(** What a call says about [chi_max]: an iterate that is constructed or
    optimized carries [chi_max = chi], and a closure handed to an engine
    builds only such iterates, whatever [U] and previous iterate it gets. *)
Definition event_chi_max (chi : pyval) (ev : event) : Prop :=
  match ev with
  | EvManifold _ => True
  | EvOptimizer _ _ c _ => ∀ U old, it_chi_max (c U old) = Given chi
  | EvIterate it => it_chi_max it = Given chi
  | EvOptimize _ it _ => it_chi_max it = Given chi
  end.


(** The keys the drivers write: per-run counters and per-iteration data. *)
Definition CG_counter_keys : list string :=
  ["N_iters_disentangler"; "disentangler_num_restarts_not_descent";
   "disentangler_num_restarts_powell"].
Definition CG_iteration_keys : list string :=
  ["disentangler_iterates"; "disentangler_costs"; "disentangler_step_sizes"].
Definition TRM_counter_keys : list string := ["N_iters_disentangler"].
Definition TRM_iteration_keys : list string :=
  ["disentangler_iterates"; "disentangler_costs"; "disentangler_deltas";
   "disentangler_tCG_iters"].

(** Entries under keys outside [K] are what they were, and a dict stays a
    dict (and [None] stays [None]). *)
Definition frame (K : list string) : relation store := λ st st',
  match debug_obj st, debug_obj st' with
  | Some d, Some d' => ∀ k, k ∉ K → d' !! k = d !! k
  | None, None => True
  | _, _ => False
  end.

(** The two guarded blocks of [record_CG] and [record_TRM]. *)
Definition record_CG_counters (n num_restarts_not_descent num_restarts_powell : pyval)
    : M unit :=
  append_to_dict_list "N_iters_disentangler" n ;;;
  append_to_dict_list "disentangler_num_restarts_not_descent" num_restarts_not_descent ;;;
  append_to_dict_list "disentangler_num_restarts_powell" num_restarts_powell.

Definition record_CG_iterations (debug_info : pyval) : M unit :=
  d0 <- lift (py_getitem debug_info 0) ;; dict_setitem "disentangler_iterates" d0 ;;;
  d1 <- lift (py_getitem debug_info 1) ;; dict_setitem "disentangler_costs" d1 ;;;
  d2 <- lift (py_getitem debug_info 2) ;; dict_setitem "disentangler_step_sizes" d2.

Definition record_TRM_iterations (debug_info : pyval) : M unit :=
  d0 <- lift (py_getitem debug_info 0) ;; dict_setitem "disentangler_iterates" d0 ;;;
  d1 <- lift (py_getitem debug_info 1) ;; dict_setitem "disentangler_costs" d1 ;;;
  d2 <- lift (py_getitem debug_info 2) ;; dict_setitem "disentangler_deltas" d2 ;;;
  d3 <- lift (py_getitem debug_info 3) ;; dict_setitem "disentangler_tCG_iters" d3.

(** The answer of the iteration-info predicate in the store [st]. *)
Definition info_flag (env : Collaborators) (st : store) : bool :=
  check_debug_level env (debug_obj st)
    LOG_DISENTANGLER_TRIPARTITE_DECOMPOSITION_ITERATION_INFO.











(** A caller's dict with an earlier counter list and an unrelated entry. *)
Definition dict_before : gmap string pyval :=
  {["debug_level" := PInt 2%Z; "N_iters_disentangler" := PList [PInt 4%Z];
    "other" := PStr "kept"]}.

(** ** Vocabulary of the further properties *)

(** Every call of the run satisfies [P], and an optimizer was constructed. *)
Definition calls_satisfy (P : event → Prop) (st : store) (out : result pyval * store)
    : Prop :=
  ∃ evs, calls_of st out evs ∧ Forall P evs
    ∧ ∃ k m c kwargs, EvOptimizer k m c kwargs ∈ evs.


(** The SVD settings of the iterates: the closure builds iterates with
    [N_iters_svd] and the initial iterate is built with
    [N_iters_svd_initial]; both use [eps_svd]. *)
Definition svd_settings (N_iters_svd N_iters_svd_initial eps_svd : pyval) (ev : event)
    : Prop :=
  match ev with
  | EvManifold _ => True
  | EvOptimizer _ _ c _ =>
      ∀ U old, it_N_iters_svd (c U old) = Given N_iters_svd
               ∧ it_eps_svd (c U old) = Given eps_svd
  | EvIterate it | EvOptimize _ it _ =>
      it_N_iters_svd it = Given N_iters_svd_initial ∧ it_eps_svd it = Given eps_svd
  end.

(** Every iterate is [make U]: the initial one at [U0], and the closure's
    at the candidate it is given, whatever the previous iterate. *)
Definition builds (make : ndarray complex128 → Iterate) (U0 : ndarray complex128)
    (ev : event) : Prop :=
  match ev with
  | EvManifold _ => True
  | EvOptimizer _ _ c _ => ∀ U old, c U old = make U
  | EvIterate it | EvOptimize _ it _ => it = make U0
  end.

(** The closure hands the previous iterate to the constructor; the initial
    iterate is constructed with [old_iterate=None]. *)
Definition warm_start (ev : event) : Prop :=
  match ev with
  | EvManifold _ => True
  | EvOptimizer _ _ c _ => ∀ U old, it_old_iterate (c U old) = Given old
  | EvIterate it | EvOptimize _ it _ => it_old_iterate it = Given PNone
  end.

(** Every iterate is of class [cls], for [theta] and [chi]; the initial one
    sits at [U0] and the closure's at the candidate it is given. *)
Definition wired (cls : IterateClass) (theta : ndarray complex128) (chi : pyval)
    (U0 : ndarray complex128) (ev : event) : Prop :=
  match ev with
  | EvManifold _ => True
  | EvOptimizer _ _ c _ =>
      ∀ U old, it_class (c U old) = cls ∧ it_U (c U old) = U
               ∧ it_theta (c U old) = theta ∧ it_chi (c U old) = chi
  | EvIterate it | EvOptimize _ it _ =>
      it_class it = cls ∧ it_U it = U0 ∧ it_theta it = theta ∧ it_chi it = chi
  end.

(** The manifold is that of square matrices with as many entries as [U0],
    and carries the shape of [U0]. *)
Definition manifold_matches (U0 : ndarray complex128) (ev : event) : Prop :=
  match ev with
  | EvManifold m | EvOptimizer _ m _ _ =>
      mf_n m = mf_p m ∧ mf_n m * mf_p m = length (data U0) ∧ mf_shape m = shape U0
  | _ => True
  end.


(** A call that sets every tuning parameter and two keywords of the engine. *)
Definition kw_tuned : gmap string pyval :=
  {["chi_max" := PInt 3%Z; "N_iters_svd" := PInt 7%Z; "eps_svd" := PFloat 0.5%float;
    "N_iters_svd_initial" := PInt 9%Z; "max_iter" := PInt 20%Z;
    "renyi_alpha" := PFloat 0.5%float]}.

(** The iterate the sample conjugate-gradients engine ends with on
    [store_quiet], for [chi = 1] and no keywords. *)
Definition sample_final_CG : Iterate :=
  sample_step (construct_new_iterate_CG theta1211 (PInt 1%Z))
    (construct_new_iterate_CG theta1211 (PInt 1%Z) (identity_tensor 2 1) PNone).

(** The same for the sample trust-region engine. *)
Definition sample_final_TRM : Iterate :=
  sample_step (construct_new_iterate_TRM theta1211 (PInt 1%Z))
    (construct_new_iterate_TRM theta1211 (PInt 1%Z) (identity_tensor 2 1) PNone).

(** ** The engine call of a run *)


















(** Engines that differ from the sample ones in one point: [optimize]
    returns the array [U] of the final iterate first, not the iterate. *)
Definition array_env : Collaborators := {|
  CGO := closure;
  TRO := closure;
  ConjugateGradientsOptimizer := λ _ c _, inr c;
  CG_optimize := λ c init log,
    inr (PArray (it_U (sample_step c init)), PInt 1%Z, PInt 0%Z, PInt 0%Z, PNone);
  TrustRegionOptimizer := λ _ c _, inr c;
  TRM_optimize := λ c init log _,
    inr (PArray (it_U (sample_step c init)), PInt 1%Z, PNone);
  check_debug_level := sample_check_debug_level
|}.



(** ** Collaborators that can reach the store

    The drivers pass [theta] by reference: the iterate constructors and,
    through the closures, the engines hold the caller's array and could
    write to it.  Here every call into a collaborating module is a
    computation over the store, so that what it does to [theta] is not fixed
    by its type.  The drivers are the same lines of the source, with the
    calls taken from a record of such computations. *)
Record Effects := {
  eCGO : Type;
  eTRO : Type;
  e_manifold : nat → nat → list nat → M ComplexStiefelManifold;
  e_iterate : Iterate → M Iterate;
  e_new_CG : ComplexStiefelManifold → closure → gmap string pyval → M eCGO;
  e_optimize_CG : eCGO → Iterate → bool → M (pyval * pyval * pyval * pyval * pyval);
  e_new_TRM : ComplexStiefelManifold → closure → gmap string pyval → M eTRO;
  e_optimize_TRM : eTRO → Iterate → bool → bool → M (pyval * pyval * pyval);
  e_debug_level : DebugLevel → M bool;
  e_append : string → pyval → M unit
}.

Section DriversWithEffects.

Variable E : Effects.

Definition record_CG_in (log_debug_info : bool) (n num_restarts_not_descent
    num_restarts_powell debug_info : pyval) : M unit :=
  b <- e_debug_level E LOG_DISENTANGLER_TRIPARTITE_DECOMPOSITION_ITERATION_INFO ;;
  when b (e_append E "N_iters_disentangler" n ;;;
          e_append E "disentangler_num_restarts_not_descent" num_restarts_not_descent ;;;
          e_append E "disentangler_num_restarts_powell" num_restarts_powell) ;;;
  when log_debug_info
    (d0 <- lift (py_getitem debug_info 0) ;; dict_setitem "disentangler_iterates" d0 ;;;
     d1 <- lift (py_getitem debug_info 1) ;; dict_setitem "disentangler_costs" d1 ;;;
     d2 <- lift (py_getitem debug_info 2) ;; dict_setitem "disentangler_step_sizes" d2).

Definition record_TRM_in (log_debug_info : bool) (n debug_info : pyval) : M unit :=
  b <- e_debug_level E LOG_DISENTANGLER_TRIPARTITE_DECOMPOSITION_ITERATION_INFO ;;
  when b (e_append E "N_iters_disentangler" n) ;;;
  when log_debug_info
    (d0 <- lift (py_getitem debug_info 0) ;; dict_setitem "disentangler_iterates" d0 ;;;
     d1 <- lift (py_getitem debug_info 1) ;; dict_setitem "disentangler_costs" d1 ;;;
     d2 <- lift (py_getitem debug_info 2) ;; dict_setitem "disentangler_deltas" d2 ;;;
     d3 <- lift (py_getitem debug_info 3) ;; dict_setitem "disentangler_tCG_iters" d3).

Definition disentangle_CG_in (chi : pyval) (kw : gmap string pyval) : M pyval :=
  let kwargs := kw in
  shp <- theta_shape ;;
  match shp with
  | [_; D1; D2; _] =>
      theta <- get_theta ;;
      U0 <- lift (initial_unitary D1 D2) ;;
      let construct_new_iterate := construct_new_iterate_CG theta chi in
      manifold <- e_manifold E (D1 * D2) (D1 * D2) (shape U0) ;;
      conjugateGradientsOptimizer <- e_new_CG E manifold construct_new_iterate kwargs ;;
      log_debug_info <-
        e_debug_level E LOG_PER_ITERATION_DEBUG_INFO_DISENTANGLER_TRIPARTITE_DECOMPOSITION ;;
      init <- e_iterate E (construct_new_iterate U0 PNone) ;;
      r <- e_optimize_CG E conjugateGradientsOptimizer init log_debug_info ;;
      let '(iterate, n, num_restarts_not_descent, num_restarts_powell, debug_info) := r in
      record_CG_in log_debug_info n num_restarts_not_descent num_restarts_powell debug_info ;;;
      ret iterate
  | _ => raise ValueError
  end.

Definition disentangle_approx_CG_in (chi : pyval) (kw : gmap string pyval) : M pyval :=
  let N_iters_svd := kw_arg "N_iters_svd" (PInt 5%Z) kw in
  let eps_svd := kw_arg "eps_svd" (PFloat 0%float) kw in
  let N_iters_svd_initial := kw_arg "N_iters_svd_initial" (PInt 50%Z) kw in
  let kwargs := kw_rest ["N_iters_svd"; "eps_svd"; "N_iters_svd_initial"] kw in
  shp <- theta_shape ;;
  match shp with
  | [_; D1; D2; _] =>
      theta <- get_theta ;;
      U0 <- lift (initial_unitary D1 D2) ;;
      let construct_new_iterate :=
        construct_new_iterate_approx_CG theta chi N_iters_svd eps_svd in
      manifold <- e_manifold E (D1 * D2) (D1 * D2) (shape U0) ;;
      conjugateGradientsOptimizer <- e_new_CG E manifold construct_new_iterate kwargs ;;
      log_debug_info <-
        e_debug_level E LOG_PER_ITERATION_DEBUG_INFO_DISENTANGLER_TRIPARTITE_DECOMPOSITION ;;
      init <- e_iterate E (TruncErrorIterateCG U0 theta chi (Given PNone)
                             (Given N_iters_svd_initial) (Given eps_svd) (Given PNone)) ;;
      r <- e_optimize_CG E conjugateGradientsOptimizer init log_debug_info ;;
      let '(iterate, n, num_restarts_not_descent, num_restarts_powell, debug_info) := r in
      record_CG_in log_debug_info n num_restarts_not_descent num_restarts_powell debug_info ;;;
      ret iterate
  | _ => raise ValueError
  end.

Definition disentangle_TRM_in (chi : pyval) (kw : gmap string pyval) : M pyval :=
  let kwargs := kw in
  shp <- theta_shape ;;
  match shp with
  | [_; D1; D2; _] =>
      theta <- get_theta ;;
      U0 <- lift (initial_unitary D1 D2) ;;
      let construct_new_iterate := construct_new_iterate_TRM theta chi in
      manifold <- e_manifold E (D1 * D2) (D1 * D2) (shape U0) ;;
      trustRegionOptimizer <- e_new_TRM E manifold construct_new_iterate kwargs ;;
      log_debug_info <-
        e_debug_level E LOG_PER_ITERATION_DEBUG_INFO_DISENTANGLER_TRIPARTITE_DECOMPOSITION ;;
      init <- e_iterate E (construct_new_iterate U0 PNone) ;;
      r <- e_optimize_TRM E trustRegionOptimizer init log_debug_info false ;;
      let '(iterate, n, debug_info) := r in
      record_TRM_in log_debug_info n debug_info ;;;
      ret iterate
  | _ => raise ValueError
  end.

Definition disentangle_approx_TRM_in (chi : pyval) (kw : gmap string pyval) : M pyval :=
  let chi_max := kw_arg "chi_max" PNone kw in
  let N_iters_svd := kw_arg "N_iters_svd" (PInt 2%Z) kw in
  let eps_svd := kw_arg "eps_svd" (PFloat 0%float) kw in
  let N_iters_svd_initial := kw_arg "N_iters_svd_initial" (PInt 50%Z) kw in
  let kwargs := kw_rest ["chi_max"; "N_iters_svd"; "eps_svd"; "N_iters_svd_initial"] kw in
  let chi_max := chi_max_or_chi chi chi_max in
  shp <- theta_shape ;;
  match shp with
  | [_; D1; D2; _] =>
      theta <- get_theta ;;
      U0 <- lift (initial_unitary D1 D2) ;;
      let construct_new_iterate :=
        construct_new_iterate_approx_TRM theta chi chi_max N_iters_svd eps_svd in
      manifold <- e_manifold E (D1 * D2) (D1 * D2) (shape U0) ;;
      trustRegionOptimizer <- e_new_TRM E manifold construct_new_iterate kwargs ;;
      log_debug_info <-
        e_debug_level E LOG_PER_ITERATION_DEBUG_INFO_DISENTANGLER_TRIPARTITE_DECOMPOSITION ;;
      init <- e_iterate E (TruncErrorIterateApproxTRM U0 theta chi (Given chi_max)
                             (Given N_iters_svd_initial) (Given eps_svd) (Given PNone)) ;;
      r <- e_optimize_TRM E trustRegionOptimizer init log_debug_info false ;;
      let '(iterate, n, debug_info) := r in
      record_TRM_in log_debug_info n debug_info ;;;
      ret iterate
  | _ => raise ValueError
  end.

Definition disentangle_in (chi : pyval) (method : kwarg string) (kwargs : gmap string pyval)
    : M pyval :=
  let method := match method with Given s => s | Omitted => "trm" end in
  if String.eqb method "trm" then disentangle_TRM_in chi kwargs
  else if String.eqb method "cg" then disentangle_CG_in chi kwargs
  else raise (NotImplementedError (unsupported_method method)).

Definition disentangle_approx_in (chi : pyval) (method : kwarg string)
    (kwargs : gmap string pyval) : M pyval :=
  let method := match method with Given s => s | Omitted => "cg" end in
  if String.eqb method "trm" then disentangle_approx_TRM_in chi kwargs
  else if String.eqb method "cg" then disentangle_approx_CG_in chi kwargs
  else raise (NotImplementedError (unsupported_approx_method method)).

End DriversWithEffects.

(** Collaborators that are functions of their arguments, seen as
    computations: they log their call and change nothing. *)
Definition effects_of (env : Collaborators) : Effects := {|
  eCGO := CGO env;
  eTRO := TRO env;
  e_manifold := new_manifold;
  e_iterate := new_iterate;
  e_new_CG := new_CG env;
  e_optimize_CG := optimize_CG env;
  e_new_TRM := new_TRM env;
  e_optimize_TRM := optimize_TRM env;
  e_debug_level := debug_level env;
  e_append := append_to_dict_list
|}.

(** Modelled from the spec: the collaborating modules are not part of this
    file.  The spec takes [theta] as the "immutable input to a disentangling
    run" and has "iterate construction and manifold operations" be "pure
    functions of their inputs (no shared mutable state)": no call into a
    collaborating module changes the caller's [theta]. *)
Definition leave_theta_alone (E : Effects) : Prop :=
  (∀ n p shp, stable same_theta (e_manifold E n p shp))
  ∧ (∀ it, stable same_theta (e_iterate E it))
  ∧ (∀ m c kwargs, stable same_theta (e_new_CG E m c kwargs))
  ∧ (∀ opt init log, stable same_theta (e_optimize_CG E opt init log))
  ∧ (∀ m c kwargs, stable same_theta (e_new_TRM E m c kwargs))
  ∧ (∀ opt init log warn, stable same_theta (e_optimize_TRM E opt init log warn))
  ∧ (∀ level, stable same_theta (e_debug_level E level))
  ∧ (∀ key value, stable same_theta (e_append E key value)).

(** An engine whose [optimize] zeroes the array it was handed by
    reference. *)
Definition zero_theta : M unit :=
  λ st, (inr tt,
         Store (NdArray (shape (theta_obj st))
                  (map (λ _, Complex 0%float 0%float) (data (theta_obj st))))
           (debug_obj st) (trace st)).

Definition overwriting_effects : Effects := {|
  eCGO := CGO sample_env;
  eTRO := TRO sample_env;
  e_manifold := new_manifold;
  e_iterate := new_iterate;
  e_new_CG := new_CG sample_env;
  e_optimize_CG := λ opt init log, zero_theta ;;; optimize_CG sample_env opt init log;
  e_new_TRM := new_TRM sample_env;
  e_optimize_TRM := λ opt init log warn,
    zero_theta ;;; optimize_TRM sample_env opt init log warn;
  e_debug_level := debug_level sample_env;
  e_append := append_to_dict_list
|}.

(** * Properties *)

(** ** Running a computation *)

Section Stable.

Context (R : relation store) `{!PreOrder R}.

Lemma stable_ret {A} (a : A) : stable R (ret a).
Proof. intros st. simpl. reflexivity. Qed.

Lemma stable_raise {A} e : stable R (@raise A e).
Proof. intros st. simpl. reflexivity. Qed.

Lemma stable_lift {A} (r : result A) : stable R (lift r).
Proof. intros st. simpl. reflexivity. Qed.

Lemma stable_bind {A B} (m : M A) (k : A → M B) :
  stable R m → (∀ a, stable R (k a)) → stable R (bind m k).
Proof.
  intros Hm Hk st. unfold bind. specialize (Hm st).
  destruct (m st) as [[e|a] st1]; simpl in *; [done|].
  etrans; [exact Hm | apply Hk].
Qed.

Lemma stable_when b (m : M unit) : stable R m → stable R (when b m).
Proof. intros Hm. destruct b; [done | apply stable_ret]. Qed.

Lemma stable_theta_shape : stable R theta_shape.
Proof. intros st. simpl. reflexivity. Qed.

Lemma stable_get_theta : stable R get_theta.
Proof. intros st. simpl. reflexivity. Qed.

Lemma stable_debug_level env level : stable R (debug_level env level).
Proof. intros st. simpl. reflexivity. Qed.

End Stable.

Ltac stable_steps R prim :=
  repeat first
    [ apply (stable_ret R) | apply (stable_raise R) | apply (stable_lift R)
    | apply (stable_theta_shape R) | apply (stable_get_theta R)
    | apply (stable_debug_level R)
    | apply (stable_when R)
    | prim
    | apply (stable_bind R); [ | intros ? ]
    | match goal with
      | |- stable _ (match ?x with _ => _ end) => destruct x
      end ].

Ltac unfold_drivers :=
  unfold disentangle, disentangle_approx, disentangle_CG, disentangle_approx_CG,
    disentangle_TRM, disentangle_approx_TRM, record_CG, record_TRM, new_manifold,
    new_iterate, new_CG, new_TRM, optimize_CG, optimize_TRM.

(** ** The input tensor *)

#[local] Instance same_theta_preorder : PreOrder same_theta.
Proof. split; [done | intros x y z Hxy Hyz; unfold same_theta in *; congruence]. Qed.

Lemma same_theta_emit e : stable same_theta (emit e).
Proof. done. Qed.

Lemma same_theta_setitem key value : stable same_theta (dict_setitem key value).
Proof. intros st. unfold dict_setitem. by destruct (debug_obj st). Qed.

Lemma same_theta_append key value : stable same_theta (append_to_dict_list key value).
Proof.
  intros st. unfold append_to_dict_list.
  destruct (debug_obj st) as [d|]; [|done].
  by destruct (d !! key) as [[]|].
Qed.

Ltac theta_prim :=
  first [ apply same_theta_emit | apply same_theta_setitem | apply same_theta_append ].

Lemma same_theta_CG env chi kw : stable same_theta (disentangle_CG env chi kw).
Proof. unfold_drivers. stable_steps same_theta theta_prim. Qed.

Lemma same_theta_approx_CG env chi kw : stable same_theta (disentangle_approx_CG env chi kw).
Proof. unfold_drivers. stable_steps same_theta theta_prim. Qed.

Lemma same_theta_TRM env chi kw : stable same_theta (disentangle_TRM env chi kw).
Proof. unfold_drivers. stable_steps same_theta theta_prim. Qed.

Lemma same_theta_approx_TRM env chi kw :
  stable same_theta (disentangle_approx_TRM env chi kw).
Proof. unfold_drivers. stable_steps same_theta theta_prim. Qed.

(** ** Dispatch *)

Lemma eqb_ne (s t : string) : s ≠ t → String.eqb s t = false.
Proof. intros H. by apply String.eqb_neq. Qed.

(** C3: a method string other than "trm" and "cg" makes both dispatchers
    raise [NotImplementedError]; the store (the caller's [debug_dict], the
    input and the trace of calls into the engines) is what it was, and no
    value is returned. *)
Theorem unsupported_method_raises env chi method kw st :
  method ≠ "trm" → method ≠ "cg" →
  disentangle env chi (Given method) kw st
    = (inl (NotImplementedError (unsupported_method method)), st)
  ∧ disentangle_approx env chi (Given method) kw st
    = (inl (NotImplementedError (unsupported_approx_method method)), st).
Proof.
  intros Htrm Hcg. unfold disentangle, disentangle_approx.
  rewrite (eqb_ne _ _ Htrm), (eqb_ne _ _ Hcg). by split.
Qed.

Lemma unsupported_method_raises_bogus :
  disentangle sample_env (PInt 1%Z) (Given "bogus") ∅ store_logging
    = (inl (NotImplementedError (unsupported_method "bogus")), store_logging)
  ∧ disentangle_approx sample_env (PInt 1%Z) (Given "bogus") ∅ store_logging
    = (inl (NotImplementedError (unsupported_approx_method "bogus")), store_logging).
Proof.
  apply (unsupported_method_raises sample_env (PInt 1%Z) "bogus" ∅ store_logging);
    discriminate.
Defined.

(** C4: [disentangle] is [disentangle_TRM] when [method] is left out or is
    "trm" and [disentangle_CG] when it is "cg"; [disentangle_approx] is
    [disentangle_approx_CG] when [method] is left out or is "cg" and
    [disentangle_approx_TRM] when it is "trm".  The two sides agree on the
    outcome and on the final store, for every [chi], keyword arguments and
    initial store (hence every [theta] and [debug_dict]). *)
Theorem dispatch_equals_driver env chi kw st :
  disentangle env chi Omitted kw st = disentangle_TRM env chi kw st
  ∧ disentangle env chi (Given "trm") kw st = disentangle_TRM env chi kw st
  ∧ disentangle env chi (Given "cg") kw st = disentangle_CG env chi kw st
  ∧ disentangle_approx env chi Omitted kw st = disentangle_approx_CG env chi kw st
  ∧ disentangle_approx env chi (Given "cg") kw st = disentangle_approx_CG env chi kw st
  ∧ disentangle_approx env chi (Given "trm") kw st = disentangle_approx_TRM env chi kw st.
Proof.
  unfold disentangle, disentangle_approx.
  change (String.eqb "trm" "trm") with true.
  change (String.eqb "cg" "trm") with false.
  change (String.eqb "cg" "cg") with true.
  repeat split.
Qed.

(** ** The shape of [theta] *)

(** The tuple unpacking [_, D1, D2, _ = theta.shape] with any continuation. *)
Lemma unpack_shape_fails {A} (st : store) :
  length (shape (theta_obj st)) ≠ 4 →
  ∀ k : nat → nat → M A,
    bind theta_shape
      (λ shp, match shp with [_; D1; D2; _] => k D1 D2 | _ => raise ValueError end) st
    = (inl ValueError, st).
Proof.
  intros Hlen k. unfold bind, theta_shape, raise.
  destruct (shape (theta_obj st)) as [|l [|D1 [|D2 [|r [|x rest]]]]];
    simpl in Hlen; done.
Qed.

Lemma unpack_shape_ok (st : store) :
  length (shape (theta_obj st)) = 4 →
  ∃ l D1 D2 r, shape (theta_obj st) = [l; D1; D2; r].
Proof.
  intros Hlen.
  destruct (shape (theta_obj st)) as [|l [|D1 [|D2 [|r [|x rest]]]]];
    simpl in Hlen; try done.
  by exists l, D1, D2, r.
Qed.

(** C9: when [theta.shape] does not have exactly four components, each of
    the four drivers raises [ValueError] at [_, D1, D2, _ = theta.shape]: the
    store is what it was, so no manifold, iterate or optimizer has been
    constructed (the trace has no new call) and nothing was recorded. *)
Theorem drivers_need_four_axes env chi kw st :
  length (shape (theta_obj st)) ≠ 4 →
  disentangle_CG env chi kw st = (inl ValueError, st)
  ∧ disentangle_approx_CG env chi kw st = (inl ValueError, st)
  ∧ disentangle_TRM env chi kw st = (inl ValueError, st)
  ∧ disentangle_approx_TRM env chi kw st = (inl ValueError, st).
Proof.
  intros Hlen. pose proof (@unpack_shape_fails pyval st Hlen) as Hunpack.
  unfold_drivers. by rewrite !Hunpack.
Qed.

Lemma drivers_need_four_axes_rank3 :
  disentangle_CG sample_env (PInt 1%Z) ∅ store_rank3 = (inl ValueError, store_rank3)
  ∧ disentangle_approx_CG sample_env (PInt 1%Z) ∅ store_rank3 = (inl ValueError, store_rank3)
  ∧ disentangle_TRM sample_env (PInt 1%Z) ∅ store_rank3 = (inl ValueError, store_rank3)
  ∧ disentangle_approx_TRM sample_env (PInt 1%Z) ∅ store_rank3
    = (inl ValueError, store_rank3).
Proof.
  apply (drivers_need_four_axes sample_env (PInt 1%Z) ∅ store_rank3).
  vm_compute. lia.
Defined.

(** ** The initial unitary *)

Lemma flat_map_rows_length {A B} (f : A → list B) (l : list A) n :
  (∀ a, length (f a) = n) → length (flat_map f l) = length l * n.
Proof.
  intros Hf. induction l as [|x l IH]; simpl; [done|].
  rewrite length_app, Hf, IH. lia.
Qed.

Lemma flat_map_rows_lookup {A B} (f : A → list B) (l : list A) n i j a :
  (∀ a, length (f a) = n) → l !! i = Some a → j < n →
  flat_map f l !! (i * n + j) = f a !! j.
Proof.
  intros Hf. revert i. induction l as [|x l IH]; intros i Hi Hj; [done|].
  destruct i as [|i]; simpl in *.
  - injection Hi as ->. apply lookup_app_l. by rewrite Hf.
  - rewrite lookup_app_r by (rewrite Hf; lia).
    rewrite Hf. replace (n + i * n + j - n) with (i * n + j) by lia. by apply IH.
Qed.

Lemma eye_row_length N r : length (eye_row N r) = N.
Proof. unfold eye_row. by rewrite length_map, length_seq. Qed.

Lemma np_eye_length N : length (data (np_eye N)) = N * N.
Proof.
  simpl. rewrite (flat_map_rows_length (eye_row N) _ N (eye_row_length N)).
  by rewrite length_seq.
Qed.

Lemma np_eye_lookup N r c :
  r < N → c < N →
  data (np_eye N) !! (r * N + c) = Some (if Nat.eqb r c then 1%float else 0%float).
Proof.
  intros Hr Hc. simpl.
  rewrite (flat_map_rows_lookup (eye_row N) _ N r c r (eye_row_length N));
    [| by apply lookup_seq_lt | done].
  unfold eye_row. change (map ?f ?l) with (f <$> l).
  rewrite list_lookup_fmap, lookup_seq_lt by done. done.
Qed.

Lemma initial_unitary_ok D1 D2 : initial_unitary D1 D2 = inr (identity_tensor D1 D2).
Proof.
  unfold initial_unitary, np_reshape.
  rewrite decide_True; [done|].
  unfold astype_complex128. cbn [data]. rewrite length_map, np_eye_length.
  simpl. nia.
Qed.

Lemma identity_tensor_entry D1 D2 a b c d :
  a < D1 → b < D2 → c < D1 → d < D2 →
  data (identity_tensor D1 D2) !! flat_index D1 D2 a b c d
    = Some (Complex (if decide (a = c ∧ b = d) then 1%float else 0%float) 0%float).
Proof.
  intros Ha Hb Hc Hd. unfold identity_tensor, astype_complex128. cbn [data].
  change (map ?f ?l) with (f <$> l). rewrite list_lookup_fmap.
  replace (flat_index D1 D2 a b c d) with ((a * D2 + b) * (D1 * D2) + (c * D2 + d))
    by (unfold flat_index; lia).
  rewrite np_eye_lookup by nia. simpl. do 2 f_equal.
  destruct (Nat.eqb_spec (a * D2 + b) (c * D2 + d)) as [Heq|Hne].
  - rewrite decide_True; [done|].
    assert (a = c) as ->.
    { destruct (lt_eq_lt_dec a c) as [[Hlt| ->]|Hgt]; [exfalso|done|exfalso].
      - pose proof (Nat.mul_le_mono_r (a + 1) c D2 ltac:(lia)). lia.
      - pose proof (Nat.mul_le_mono_r (c + 1) a D2 ltac:(lia)). lia. }
    split; [done | lia].
  - rewrite decide_False; [done|]. intros [-> ->]. done.
Qed.

(** ** Symbolic runs of the drivers *)

Ltac run_prefix Hshape :=
  unfold disentangle_CG, disentangle_approx_CG, disentangle_TRM, disentangle_approx_TRM,
    new_manifold, new_iterate, new_CG, new_TRM, optimize_CG, optimize_TRM;
  unfold bind at 1; unfold theta_shape at 1; rewrite Hshape;
  unfold bind at 1; unfold get_theta at 1;
  unfold bind at 1; rewrite initial_unitary_ok; unfold lift at 1;
  unfold bind, emit, ret, lift, debug_level; cbn [theta_obj debug_obj trace fst snd shape];
  unfold identity_tensor, add_events, log_flag, square_manifold;
  cbn [theta_obj debug_obj trace shape];
  rewrite <- ?app_assoc; cbn [app].

Lemma disentangle_CG_run env chi kw st l D1 D2 r :
  shape (theta_obj st) = [l; D1; D2; r] →
  let c := construct_new_iterate_CG (theta_obj st) chi in
  let init := c (identity_tensor D1 D2) PNone in
  let m := square_manifold D1 D2 in
  let st1 := add_events [EvManifold m; EvOptimizer CG m c kw] st in
  let st2 := add_events [EvManifold m; EvOptimizer CG m c kw; EvIterate init;
                         EvOptimize CG init (log_flag env st)] st in
  disentangle_CG env chi kw st =
    match ConjugateGradientsOptimizer env m c kw with
    | inl e => (inl e, st1)
    | inr opt =>
        match CG_optimize env opt init (log_flag env st) with
        | inl e => (inl e, st2)
        | inr (iterate, n, num_restarts_not_descent, num_restarts_powell, debug_info) =>
            match record_CG env (log_flag env st) n num_restarts_not_descent
                    num_restarts_powell debug_info st2 with
            | (inl e, st3) => (inl e, st3)
            | (inr _, st3) => (inr iterate, st3)
            end
        end
    end.
Proof.
  intros Hshape. cbv zeta. run_prefix Hshape.
  destruct (ConjugateGradientsOptimizer env _ _ _) as [e|opt]; [done|].
  destruct (CG_optimize env opt _ _) as [e|[[[[iterate n] a] b] info]]; [done|].
  by destruct (record_CG _ _ _ _ _ _ _) as [[e|[]] st3].
Qed.

Lemma disentangle_approx_CG_run env chi kw st l D1 D2 r :
  shape (theta_obj st) = [l; D1; D2; r] →
  let N_iters_svd := kw_arg "N_iters_svd" (PInt 5%Z) kw in
  let eps_svd := kw_arg "eps_svd" (PFloat 0%float) kw in
  let N_iters_svd_initial := kw_arg "N_iters_svd_initial" (PInt 50%Z) kw in
  let kwargs := kw_rest ["N_iters_svd"; "eps_svd"; "N_iters_svd_initial"] kw in
  let c := construct_new_iterate_approx_CG (theta_obj st) chi N_iters_svd eps_svd in
  let init := TruncErrorIterateCG (identity_tensor D1 D2) (theta_obj st) chi (Given PNone)
                (Given N_iters_svd_initial) (Given eps_svd) (Given PNone) in
  let m := square_manifold D1 D2 in
  let st1 := add_events [EvManifold m; EvOptimizer CG m c kwargs] st in
  let st2 := add_events [EvManifold m; EvOptimizer CG m c kwargs; EvIterate init;
                         EvOptimize CG init (log_flag env st)] st in
  disentangle_approx_CG env chi kw st =
    match ConjugateGradientsOptimizer env m c kwargs with
    | inl e => (inl e, st1)
    | inr opt =>
        match CG_optimize env opt init (log_flag env st) with
        | inl e => (inl e, st2)
        | inr (iterate, n, num_restarts_not_descent, num_restarts_powell, debug_info) =>
            match record_CG env (log_flag env st) n num_restarts_not_descent
                    num_restarts_powell debug_info st2 with
            | (inl e, st3) => (inl e, st3)
            | (inr _, st3) => (inr iterate, st3)
            end
        end
    end.
Proof.
  intros Hshape. cbv zeta. run_prefix Hshape.
  destruct (ConjugateGradientsOptimizer env _ _ _) as [e|opt]; [done|].
  destruct (CG_optimize env opt _ _) as [e|[[[[iterate n] a] b] info]]; [done|].
  by destruct (record_CG _ _ _ _ _ _ _) as [[e|[]] st3].
Qed.

Lemma disentangle_TRM_run env chi kw st l D1 D2 r :
  shape (theta_obj st) = [l; D1; D2; r] →
  let c := construct_new_iterate_TRM (theta_obj st) chi in
  let init := c (identity_tensor D1 D2) PNone in
  let m := square_manifold D1 D2 in
  let st1 := add_events [EvManifold m; EvOptimizer TRM m c kw] st in
  let st2 := add_events [EvManifold m; EvOptimizer TRM m c kw; EvIterate init;
                         EvOptimize TRM init (log_flag env st)] st in
  disentangle_TRM env chi kw st =
    match TrustRegionOptimizer env m c kw with
    | inl e => (inl e, st1)
    | inr opt =>
        match TRM_optimize env opt init (log_flag env st) false with
        | inl e => (inl e, st2)
        | inr (iterate, n, debug_info) =>
            match record_TRM env (log_flag env st) n debug_info st2 with
            | (inl e, st3) => (inl e, st3)
            | (inr _, st3) => (inr iterate, st3)
            end
        end
    end.
Proof.
  intros Hshape. cbv zeta. run_prefix Hshape.
  destruct (TrustRegionOptimizer env _ _ _) as [e|opt]; [done|].
  destruct (TRM_optimize env opt _ _ _) as [e|[[iterate n] info]]; [done|].
  by destruct (record_TRM _ _ _ _ _) as [[e|[]] st3].
Qed.

Lemma disentangle_approx_TRM_run env chi kw st l D1 D2 r :
  shape (theta_obj st) = [l; D1; D2; r] →
  let chi_max := chi_max_or_chi chi (kw_arg "chi_max" PNone kw) in
  let N_iters_svd := kw_arg "N_iters_svd" (PInt 2%Z) kw in
  let eps_svd := kw_arg "eps_svd" (PFloat 0%float) kw in
  let N_iters_svd_initial := kw_arg "N_iters_svd_initial" (PInt 50%Z) kw in
  let kwargs := kw_rest ["chi_max"; "N_iters_svd"; "eps_svd"; "N_iters_svd_initial"] kw in
  let c := construct_new_iterate_approx_TRM (theta_obj st) chi chi_max N_iters_svd eps_svd in
  let init := TruncErrorIterateApproxTRM (identity_tensor D1 D2) (theta_obj st) chi
                (Given chi_max) (Given N_iters_svd_initial) (Given eps_svd) (Given PNone) in
  let m := square_manifold D1 D2 in
  let st1 := add_events [EvManifold m; EvOptimizer TRM m c kwargs] st in
  let st2 := add_events [EvManifold m; EvOptimizer TRM m c kwargs; EvIterate init;
                         EvOptimize TRM init (log_flag env st)] st in
  disentangle_approx_TRM env chi kw st =
    match TrustRegionOptimizer env m c kwargs with
    | inl e => (inl e, st1)
    | inr opt =>
        match TRM_optimize env opt init (log_flag env st) false with
        | inl e => (inl e, st2)
        | inr (iterate, n, debug_info) =>
            match record_TRM env (log_flag env st) n debug_info st2 with
            | (inl e, st3) => (inl e, st3)
            | (inr _, st3) => (inr iterate, st3)
            end
        end
    end.
Proof.
  intros Hshape. cbv zeta. run_prefix Hshape.
  destruct (TrustRegionOptimizer env _ _ _) as [e|opt]; [done|].
  destruct (TRM_optimize env opt _ _ _) as [e|[[iterate n] info]]; [done|].
  by destruct (record_TRM _ _ _ _ _) as [[e|[]] st3].
Qed.

(** ** The calls a run makes *)

#[local] Instance same_trace_preorder : PreOrder same_trace.
Proof. split; [done | intros x y z Hxy Hyz; unfold same_trace in *; congruence]. Qed.

Lemma same_trace_setitem key value : stable same_trace (dict_setitem key value).
Proof. intros st. unfold dict_setitem. by destruct (debug_obj st). Qed.

Lemma same_trace_append key value : stable same_trace (append_to_dict_list key value).
Proof.
  intros st. unfold append_to_dict_list.
  destruct (debug_obj st) as [d|]; [|done].
  by destruct (d !! key) as [[]|].
Qed.

Ltac trace_prim := first [ apply same_trace_setitem | apply same_trace_append ].

Lemma record_CG_trace env log n a b info st :
  trace (record_CG env log n a b info st).2 = trace st.
Proof.
  revert st. change (stable same_trace (record_CG env log n a b info)).
  unfold record_CG. stable_steps same_trace trace_prim.
Qed.

Lemma record_TRM_trace env log n info st :
  trace (record_TRM env log n info st).2 = trace st.
Proof.
  revert st. change (stable same_trace (record_TRM env log n info)).
  unfold record_TRM. stable_steps same_trace trace_prim.
Qed.

Ltac run_cases Hrun rec_trace :=
  rewrite Hrun;
  match goal with
  | |- context [ConjugateGradientsOptimizer ?env ?m ?c ?kw] =>
      destruct (ConjugateGradientsOptimizer env m c kw) as [e|opt]
  | |- context [TrustRegionOptimizer ?env ?m ?c ?kw] =>
      destruct (TrustRegionOptimizer env m c kw) as [e|opt]
  end;
  [ eexists; split; [reflexivity | apply run_no_optimizer] | ];
  match goal with
  | |- context [CG_optimize ?env ?o ?i ?l] =>
      destruct (CG_optimize env o i l) as [e|[[[[iterate n] a] b] info]]
  | |- context [TRM_optimize ?env ?o ?i ?l ?w] =>
      destruct (TRM_optimize env o i l w) as [e|[[iterate n] info]]
  end;
  [ eexists; split; [reflexivity | apply run_optimized] | ];
  let Htr := fresh "Htr" in
  match goal with
  | |- context [record_CG ?env ?l ?n ?a ?b ?i ?s] =>
      pose proof (rec_trace env l n a b i s) as Htr;
      destruct (record_CG env l n a b i s) as [[e|[]] st3]
  | |- context [record_TRM ?env ?l ?n ?i ?s] =>
      pose proof (rec_trace env l n i s) as Htr;
      destruct (record_TRM env l n i s) as [[e|[]] st3]
  end;
  (eexists; split; [exact Htr | apply run_optimized]).

Lemma disentangle_CG_calls env chi kw st l D1 D2 r :
  shape (theta_obj st) = [l; D1; D2; r] →
  let c := construct_new_iterate_CG (theta_obj st) chi in
  let out := disentangle_CG env chi kw st in
  ∃ evs, calls_of st out evs
    ∧ run_calls CG (square_manifold D1 D2) c kw (c (identity_tensor D1 D2) PNone)
        (log_flag env st) out.1 evs.
Proof.
  intros Hshape. cbv zeta. unfold calls_of.
  run_cases (disentangle_CG_run env chi kw st l D1 D2 r Hshape) record_CG_trace.
Qed.

Lemma disentangle_approx_CG_calls env chi kw st l D1 D2 r :
  shape (theta_obj st) = [l; D1; D2; r] →
  let N_iters_svd := kw_arg "N_iters_svd" (PInt 5%Z) kw in
  let eps_svd := kw_arg "eps_svd" (PFloat 0%float) kw in
  let N_iters_svd_initial := kw_arg "N_iters_svd_initial" (PInt 50%Z) kw in
  let kwargs := kw_rest ["N_iters_svd"; "eps_svd"; "N_iters_svd_initial"] kw in
  let c := construct_new_iterate_approx_CG (theta_obj st) chi N_iters_svd eps_svd in
  let init := TruncErrorIterateCG (identity_tensor D1 D2) (theta_obj st) chi (Given PNone)
                (Given N_iters_svd_initial) (Given eps_svd) (Given PNone) in
  let out := disentangle_approx_CG env chi kw st in
  ∃ evs, calls_of st out evs
    ∧ run_calls CG (square_manifold D1 D2) c kwargs init (log_flag env st) out.1 evs.
Proof.
  intros Hshape. cbv zeta. unfold calls_of.
  run_cases (disentangle_approx_CG_run env chi kw st l D1 D2 r Hshape) record_CG_trace.
Qed.

Lemma disentangle_TRM_calls env chi kw st l D1 D2 r :
  shape (theta_obj st) = [l; D1; D2; r] →
  let c := construct_new_iterate_TRM (theta_obj st) chi in
  let out := disentangle_TRM env chi kw st in
  ∃ evs, calls_of st out evs
    ∧ run_calls TRM (square_manifold D1 D2) c kw (c (identity_tensor D1 D2) PNone)
        (log_flag env st) out.1 evs.
Proof.
  intros Hshape. cbv zeta. unfold calls_of.
  run_cases (disentangle_TRM_run env chi kw st l D1 D2 r Hshape) record_TRM_trace.
Qed.

Lemma disentangle_approx_TRM_calls env chi kw st l D1 D2 r :
  shape (theta_obj st) = [l; D1; D2; r] →
  let chi_max := chi_max_or_chi chi (kw_arg "chi_max" PNone kw) in
  let N_iters_svd := kw_arg "N_iters_svd" (PInt 2%Z) kw in
  let eps_svd := kw_arg "eps_svd" (PFloat 0%float) kw in
  let N_iters_svd_initial := kw_arg "N_iters_svd_initial" (PInt 50%Z) kw in
  let kwargs := kw_rest ["chi_max"; "N_iters_svd"; "eps_svd"; "N_iters_svd_initial"] kw in
  let c := construct_new_iterate_approx_TRM (theta_obj st) chi chi_max N_iters_svd eps_svd in
  let init := TruncErrorIterateApproxTRM (identity_tensor D1 D2) (theta_obj st) chi
                (Given chi_max) (Given N_iters_svd_initial) (Given eps_svd) (Given PNone) in
  let out := disentangle_approx_TRM env chi kw st in
  ∃ evs, calls_of st out evs
    ∧ run_calls TRM (square_manifold D1 D2) c kwargs init (log_flag env st) out.1 evs.
Proof.
  intros Hshape. cbv zeta. unfold calls_of.
  run_cases (disentangle_approx_TRM_run env chi kw st l D1 D2 r Hshape) record_TRM_trace.
Qed.

(** ** The entries of [U0] *)

Lemma identity_tensor_reshaped D1 D2 : identity_reshaped D1 D2 (identity_tensor D1 D2).
Proof.
  split; [done|]. split.
  - unfold identity_tensor, astype_complex128. cbn [data].
    by rewrite length_map, np_eye_length.
  - intros row col Hrow Hcol. unfold identity_tensor, astype_complex128. cbn [data].
    change (map ?f ?l) with (f <$> l).
    rewrite list_lookup_fmap, np_eye_lookup by done. simpl. do 3 f_equal.
    destruct (Nat.eqb_spec row col); [by rewrite decide_True | by rewrite decide_False].
Qed.

(** ** [chi_max] in the approximate trust-region driver *)

Lemma run_calls_Forall (P : event → Prop) k m c kwargs init log out evs :
  run_calls k m c kwargs init log out evs →
  P (EvManifold m) → P (EvOptimizer k m c kwargs) → P (EvIterate init) →
  P (EvOptimize k init log) → Forall P evs.
Proof. intros Hrun Hm Hc Hi Ho. inversion Hrun; subst; repeat constructor; done. Qed.

Lemma run_calls_optimizer k m c kwargs init log out evs :
  run_calls k m c kwargs init log out evs → EvOptimizer k m c kwargs ∈ evs.
Proof. intros Hrun. inversion Hrun; subst; rewrite !elem_of_cons; auto. Qed.

(** C6: when [chi_max] is left out or is [None], [disentangle_approx_TRM]
    uses [chi] in its place from the start: the initial iterate and every
    iterate the closure builds carry [chi_max = chi]. *)
Theorem chi_max_defaults_to_chi env chi kw st :
  kw_arg "chi_max" PNone kw = PNone →
  ∃ evs, calls_of st (disentangle_approx_TRM env chi kw st) evs
    ∧ Forall (event_chi_max chi) evs
    ∧ (length (shape (theta_obj st)) = 4 → ∃ m c kwargs, EvOptimizer TRM m c kwargs ∈ evs).
Proof.
  intros Hnone.
  destruct (decide (length (shape (theta_obj st)) = 4)) as [Hlen|Hlen].
  - destruct (unpack_shape_ok st Hlen) as (l & D1 & D2 & r & Hshape).
    destruct (disentangle_approx_TRM_calls env chi kw st l D1 D2 r Hshape)
      as (evs & Hcalls & Hrun).
    rewrite Hnone in Hrun. cbn [chi_max_or_chi] in Hrun.
    exists evs. split; [done|]. split.
    + by eapply run_calls_Forall.
    + intros _. do 3 eexists. by eapply run_calls_optimizer.
  - exists []. unfold calls_of, disentangle_approx_TRM.
    rewrite (@unpack_shape_fails pyval st Hlen). rewrite app_nil_r.
    split; [done|]. split; [constructor | done].
Qed.

Lemma chi_max_defaults_to_chi_sample :
  ∃ evs, calls_of store_logging
           (disentangle_approx_TRM sample_env (PInt 7%Z) {["N_iters_svd" := PInt 3%Z]}
              store_logging) evs
    ∧ Forall (event_chi_max (PInt 7%Z)) evs
    ∧ (length (shape (theta_obj store_logging)) = 4 →
       ∃ m c kwargs, EvOptimizer TRM m c kwargs ∈ evs).
Proof.
  apply (chi_max_defaults_to_chi sample_env (PInt 7%Z) {["N_iters_svd" := PInt 3%Z]}
           store_logging).
  reflexivity.
Defined.

(** ** Keyword arguments the driver does not name *)





(** ** The debug record *)

#[local] Instance frame_preorder K : PreOrder (frame K).
Proof.
  split.
  - intros st. unfold frame. by destruct (debug_obj st).
  - intros x y z. unfold frame.
    destruct (debug_obj x), (debug_obj y), (debug_obj z); try done.
    intros Hxy Hyz k Hk. by rewrite Hyz, Hxy.
Qed.

Lemma frame_setitem K key value : key ∈ K → stable (frame K) (dict_setitem key value).
Proof.
  intros Hin st. unfold dict_setitem, frame.
  destruct (debug_obj st) as [d|] eqn:Hd; simpl; rewrite ?Hd; [|done].
  intros k Hk. apply lookup_insert_ne. by intros ->.
Qed.

Lemma frame_append K key value : key ∈ K → stable (frame K) (append_to_dict_list key value).
Proof.
  intros Hin st. unfold append_to_dict_list, frame.
  destruct (debug_obj st) as [d|] eqn:Hd; simpl; rewrite ?Hd; [|done].
  destruct (d !! key) as [[]|]; simpl; rewrite ?Hd; try done;
    intros k Hk; apply lookup_insert_ne; by intros ->.
Qed.

Lemma frame_emit K e : stable (frame K) (emit e).
Proof. intros st. unfold frame. simpl. by destruct (debug_obj st). Qed.

Ltac frame_prim :=
  first [ apply frame_emit
        | apply frame_setitem; unfold CG_counter_keys, CG_iteration_keys, TRM_counter_keys,
            TRM_iteration_keys; set_solver
        | apply frame_append; unfold CG_counter_keys, CG_iteration_keys, TRM_counter_keys,
            TRM_iteration_keys; set_solver ].

Lemma record_CG_unfold env log n r1 r2 info st :
  record_CG env log n r1 r2 info st
  = (when (info_flag env st) (record_CG_counters n r1 r2) ;;;
     when log (record_CG_iterations info)) st.
Proof. reflexivity. Qed.

Lemma record_TRM_unfold env log n info st :
  record_TRM env log n info st
  = (when (info_flag env st) (append_to_dict_list "N_iters_disentangler" n) ;;;
     when log (record_TRM_iterations info)) st.
Proof. reflexivity. Qed.



































(** ** What a driver returns *)

(** X12: a conjugate-gradients driver returns the first component of the
    tuple that [optimize] returned, as it is. *)
Lemma CG_drivers_return_first_component env chi kw st v :
  (disentangle_CG env chi kw st).1 = inr v ∨ (disentangle_approx_CG env chi kw st).1 = inr v →
  ∃ opt init log n r1 r2 info, CG_optimize env opt init log = inr (v, n, r1, r2, info).
Proof.
  intros [Hv|Hv].
  - destruct (decide (length (shape (theta_obj st)) = 4)) as [Hlen|Hlen].
    + destruct (unpack_shape_ok st Hlen) as (l & D1 & D2 & r & Hshape).
      rewrite (disentangle_CG_run env chi kw st l D1 D2 r Hshape) in Hv. simpl in Hv.
      destruct (ConjugateGradientsOptimizer env _ _ _) as [e|opt]; [done|].
      destruct (CG_optimize env opt _ _) as [e|[[[[iterate n] a] b] info]] eqn:Hopt; [done|].
      destruct (record_CG _ _ _ _ _ _ _) as [[e|[]] st3]; [done|].
      injection Hv as <-. by do 7 eexists.
    + unfold disentangle_CG in Hv. by rewrite (@unpack_shape_fails pyval st Hlen) in Hv.
  - destruct (decide (length (shape (theta_obj st)) = 4)) as [Hlen|Hlen].
    + destruct (unpack_shape_ok st Hlen) as (l & D1 & D2 & r & Hshape).
      rewrite (disentangle_approx_CG_run env chi kw st l D1 D2 r Hshape) in Hv. simpl in Hv.
      destruct (ConjugateGradientsOptimizer env _ _ _) as [e|opt]; [done|].
      destruct (CG_optimize env opt _ _) as [e|[[[[iterate n] a] b] info]] eqn:Hopt; [done|].
      destruct (record_CG _ _ _ _ _ _ _) as [[e|[]] st3]; [done|].
      injection Hv as <-. by do 7 eexists.
    + unfold disentangle_approx_CG in Hv.
      by rewrite (@unpack_shape_fails pyval st Hlen) in Hv.
Qed.

(** X13: a trust-region driver returns the first component of the tuple
    that [optimize] returned, as it is. *)
Lemma TRM_drivers_return_first_component env chi kw st v :
  (disentangle_TRM env chi kw st).1 = inr v
  ∨ (disentangle_approx_TRM env chi kw st).1 = inr v →
  ∃ opt init log n info, TRM_optimize env opt init log false = inr (v, n, info).
Proof.
  intros [Hv|Hv].
  - destruct (decide (length (shape (theta_obj st)) = 4)) as [Hlen|Hlen].
    + destruct (unpack_shape_ok st Hlen) as (l & D1 & D2 & r & Hshape).
      rewrite (disentangle_TRM_run env chi kw st l D1 D2 r Hshape) in Hv. simpl in Hv.
      destruct (TrustRegionOptimizer env _ _ _) as [e|opt]; [done|].
      destruct (TRM_optimize env opt _ _ _) as [e|[[iterate n] info]] eqn:Hopt; [done|].
      destruct (record_TRM _ _ _ _ _) as [[e|[]] st3]; [done|].
      injection Hv as <-. by do 5 eexists.
    + unfold disentangle_TRM in Hv. by rewrite (@unpack_shape_fails pyval st Hlen) in Hv.
  - destruct (decide (length (shape (theta_obj st)) = 4)) as [Hlen|Hlen].
    + destruct (unpack_shape_ok st Hlen) as (l & D1 & D2 & r & Hshape).
      rewrite (disentangle_approx_TRM_run env chi kw st l D1 D2 r Hshape) in Hv.
      simpl in Hv.
      destruct (TrustRegionOptimizer env _ _ _) as [e|opt]; [done|].
      destruct (TRM_optimize env opt _ _ _) as [e|[[iterate n] info]] eqn:Hopt; [done|].
      destruct (record_TRM _ _ _ _ _) as [[e|[]] st3]; [done|].
      injection Hv as <-. by do 5 eexists.
    + unfold disentangle_approx_TRM in Hv.
      by rewrite (@unpack_shape_fails pyval st Hlen) in Hv.
Qed.


(** ** The previous iterate in the closures *)

Lemma approx_CG_closure_ignores_old_iterate theta chi N_iters_svd eps_svd U old old' :
  construct_new_iterate_approx_CG theta chi N_iters_svd eps_svd U old
  = construct_new_iterate_approx_CG theta chi N_iters_svd eps_svd U old'.
Proof. reflexivity. Qed.

Lemma approx_TRM_closure_passes_old_iterate theta chi chi_max N_iters_svd eps_svd U old :
  it_old_iterate (construct_new_iterate_approx_TRM theta chi chi_max N_iters_svd eps_svd U old)
  = Given old.
Proof. reflexivity. Qed.

(** C2 fails for [disentangle_approx_CG]: its closure names the previous
    iterate and drops it.  With an engine that calls the closure with the
    previous iterate, the iterate [disentangle_approx_CG] ends with was
    constructed without an [old_iterate] argument, for whatever previous
    iterate the closure receives; the one [disentangle_approx_TRM] ends with
    was constructed from the previous iterate. *)
Theorem approx_CG_closure_drops_the_previous_iterate :
  (∃ it, (disentangle_approx_CG sample_env (PInt 1%Z) ∅ store_quiet).1 = inr (PIterate it)
         ∧ it_old_iterate it = Omitted)
  ∧ (∀ theta chi N_iters_svd eps_svd U old,
       it_old_iterate (construct_new_iterate_approx_CG theta chi N_iters_svd eps_svd U old)
       = Omitted)
  ∧ (∃ it prev,
       (disentangle_approx_TRM sample_env (PInt 1%Z) ∅ store_quiet).1 = inr (PIterate it)
       ∧ it_old_iterate it = Given (PIterate prev)).
Proof.
  split; [|split].
  - eexists. split; [vm_compute; reflexivity | reflexivity].
  - reflexivity.
  - do 2 eexists. split; [vm_compute; reflexivity | reflexivity].
Qed.

(** ** A run that records everything *)

Example disentangle_TRM_records_sample :
  let out := disentangle_TRM sample_env (PInt 1%Z) ∅ (store0 theta1111 (Some dict_before)) in
  ∃ d', debug_obj out.2 = Some d'
    ∧ d' !! "N_iters_disentangler" = Some (PList [PInt 4%Z; PInt 1%Z])
    ∧ d' !! "disentangler_tCG_iters" = Some (PList [PInt 3%Z])
    ∧ d' !! "other" = Some (PStr "kept")
    ∧ d' !! "debug_level" = Some (PInt 2%Z).
Proof.
  intros out. exists (default ∅ (debug_obj out.2)).
  repeat split; vm_compute; reflexivity.
Qed.

Example disentangle_CG_records_sample :
  let out := disentangle_CG sample_env (PInt 1%Z) ∅ (store0 theta1111 (Some dict_before)) in
  ∃ d', debug_obj out.2 = Some d'
    ∧ d' !! "N_iters_disentangler" = Some (PList [PInt 4%Z; PInt 1%Z])
    ∧ d' !! "disentangler_num_restarts_powell" = Some (PList [PInt 0%Z])
    ∧ d' !! "disentangler_step_sizes" = Some (PList [])
    ∧ d' !! "other" = Some (PStr "kept").
Proof.
  intros out. exists (default ∅ (debug_obj out.2)).
  repeat split; vm_compute; reflexivity.
Qed.

(** A non-list entry under a counter key: the append fails and the
    exception leaves the driver. *)
Example disentangle_TRM_append_to_non_list :
  (disentangle_TRM sample_env (PInt 1%Z) ∅
     (store0 theta1111
        (Some {["debug_level" := PInt 1%Z; "N_iters_disentangler" := PInt 4%Z]}))).1
  = inl AttributeError.
Proof. by vm_compute. Qed.


(** * Further properties of the drivers *)

Lemma run_calls_satisfy (P : event → Prop) k m c kwargs init log st
    (out : result pyval * store) evs :
  calls_of st out evs → run_calls k m c kwargs init log out.1 evs →
  P (EvManifold m) → P (EvOptimizer k m c kwargs) → P (EvIterate init) →
  P (EvOptimize k init log) → calls_satisfy P st out.
Proof.
  intros Hcalls Hrun Hm Hc Hi Ho. exists evs. split; [done|]. split.
  - by eapply run_calls_Forall.
  - do 4 eexists. by eapply run_calls_optimizer.
Qed.




(** ** Keyword arguments *)



(** X5: the SVD settings of the approximate drivers.  The initial iterate
    is built with [N_iters_svd_initial] (50 unless the call sets it) and
    the closure builds every later iterate with [N_iters_svd] (5 for CG, 2
    for TRM unless the call sets it); both use [eps_svd] (0.0 unless set).
    [disentangle_approx_CG] builds every iterate with [chi_max=None]. *)
Theorem approximate_drivers_svd_settings env chi kw st l D1 D2 r :
  shape (theta_obj st) = [l; D1; D2; r] →
  calls_satisfy
    (svd_settings (kw_arg "N_iters_svd" (PInt 5%Z) kw)
       (kw_arg "N_iters_svd_initial" (PInt 50%Z) kw) (kw_arg "eps_svd" (PFloat 0%float) kw))
    st (disentangle_approx_CG env chi kw st)
  ∧ calls_satisfy
      (svd_settings (kw_arg "N_iters_svd" (PInt 2%Z) kw)
         (kw_arg "N_iters_svd_initial" (PInt 50%Z) kw)
         (kw_arg "eps_svd" (PFloat 0%float) kw))
      st (disentangle_approx_TRM env chi kw st)
  ∧ calls_satisfy (event_chi_max PNone) st (disentangle_approx_CG env chi kw st).
Proof.
  intros Hshape. repeat split.
  - destruct (disentangle_approx_CG_calls env chi kw st l D1 D2 r Hshape)
      as (evs & Hc & Hr).
    by eapply run_calls_satisfy.
  - destruct (disentangle_approx_TRM_calls env chi kw st l D1 D2 r Hshape)
      as (evs & Hc & Hr).
    by eapply run_calls_satisfy.
  - destruct (disentangle_approx_CG_calls env chi kw st l D1 D2 r Hshape)
      as (evs & Hc & Hr).
    by eapply run_calls_satisfy.
Qed.

Lemma approximate_drivers_svd_settings_defaults :
  calls_satisfy
    (svd_settings (kw_arg "N_iters_svd" (PInt 5%Z) ∅)
       (kw_arg "N_iters_svd_initial" (PInt 50%Z) ∅) (kw_arg "eps_svd" (PFloat 0%float) ∅))
    store_quiet (disentangle_approx_CG sample_env (PInt 2%Z) ∅ store_quiet)
  ∧ calls_satisfy
      (svd_settings (kw_arg "N_iters_svd" (PInt 2%Z) ∅)
         (kw_arg "N_iters_svd_initial" (PInt 50%Z) ∅)
         (kw_arg "eps_svd" (PFloat 0%float) ∅))
      store_quiet (disentangle_approx_TRM sample_env (PInt 2%Z) ∅ store_quiet)
  ∧ calls_satisfy (event_chi_max PNone) store_quiet
      (disentangle_approx_CG sample_env (PInt 2%Z) ∅ store_quiet).
Proof.
  apply (approximate_drivers_svd_settings sample_env (PInt 2%Z) ∅ store_quiet 1 2 1 1).
  reflexivity.
Defined.

(** X6: the exact drivers build exact iterates whatever keywords the call
    has.  Every iterate of [disentangle_CG] is
    [TruncErrorIterateCG(U, theta, chi, chi_max=None, N_iters_svd=None,
    eps_svd=0, old_iterate=None)] and every iterate of [disentangle_TRM] is
    [TruncErrorIterateTRM(U, theta, chi)]: a keyword such as [N_iters_svd]
    does not change them, and the previous iterate is never used. *)
Theorem exact_drivers_build_exact_iterates env chi kw st l D1 D2 r :
  shape (theta_obj st) = [l; D1; D2; r] →
  calls_satisfy
    (builds (λ U, TruncErrorIterateCG U (theta_obj st) chi (Given PNone) (Given PNone)
                    (Given (PInt 0%Z)) (Given PNone))
       (identity_tensor D1 D2))
    st (disentangle_CG env chi kw st)
  ∧ calls_satisfy
      (builds (λ U, TruncErrorIterateTRM U (theta_obj st) chi) (identity_tensor D1 D2))
      st (disentangle_TRM env chi kw st).
Proof.
  intros Hshape. split.
  - destruct (disentangle_CG_calls env chi kw st l D1 D2 r Hshape) as (evs & Hc & Hr).
    by eapply run_calls_satisfy.
  - destruct (disentangle_TRM_calls env chi kw st l D1 D2 r Hshape) as (evs & Hc & Hr).
    by eapply run_calls_satisfy.
Qed.

Lemma exact_drivers_build_exact_iterates_sample :
  calls_satisfy
    (builds (λ U, TruncErrorIterateCG U (theta_obj store_quiet) (PInt 2%Z) (Given PNone)
                    (Given PNone) (Given (PInt 0%Z)) (Given PNone))
       (identity_tensor 2 1))
    store_quiet (disentangle_CG sample_env (PInt 2%Z) kw_tuned store_quiet)
  ∧ calls_satisfy
      (builds (λ U, TruncErrorIterateTRM U (theta_obj store_quiet) (PInt 2%Z))
         (identity_tensor 2 1))
      store_quiet (disentangle_TRM sample_env (PInt 2%Z) kw_tuned store_quiet).
Proof.
  apply (exact_drivers_build_exact_iterates sample_env (PInt 2%Z) kw_tuned store_quiet
           1 2 1 1).
  reflexivity.
Defined.

(** X7: a [chi_max] that the call sets to something other than [None] is
    the one [disentangle_approx_TRM] uses: the initial iterate and every
    iterate the closure builds carry it. *)
Theorem explicit_chi_max_is_used env chi kw v st l D1 D2 r :
  kw !! "chi_max" = Some v → v ≠ PNone →
  shape (theta_obj st) = [l; D1; D2; r] →
  calls_satisfy (event_chi_max v) st (disentangle_approx_TRM env chi kw st).
Proof.
  intros Hv Hnone Hshape.
  destruct (disentangle_approx_TRM_calls env chi kw st l D1 D2 r Hshape)
    as (evs & Hc & Hr).
  assert (chi_max_or_chi chi (kw_arg "chi_max" PNone kw) = v) as Hcm.
  { unfold kw_arg. rewrite Hv. simpl. by destruct v. }
  rewrite Hcm in Hr. by eapply run_calls_satisfy.
Qed.

Lemma explicit_chi_max_is_used_sample :
  calls_satisfy (event_chi_max (PInt 3%Z)) store_quiet
    (disentangle_approx_TRM sample_env (PInt 2%Z) kw_tuned store_quiet).
Proof.
  apply (explicit_chi_max_is_used sample_env (PInt 2%Z) kw_tuned (PInt 3%Z) store_quiet
           1 2 1 1); [by vm_compute | discriminate | reflexivity].
Defined.

(** X8: [disentangle_approx_TRM] wires the warm start: its closure hands
    the previous iterate it receives to the constructor as [old_iterate],
    and the initial iterate is constructed with [old_iterate=None]. *)
Theorem approx_TRM_passes_the_previous_iterate env chi kw st l D1 D2 r :
  shape (theta_obj st) = [l; D1; D2; r] →
  calls_satisfy warm_start st (disentangle_approx_TRM env chi kw st).
Proof.
  intros Hshape.
  destruct (disentangle_approx_TRM_calls env chi kw st l D1 D2 r Hshape)
    as (evs & Hc & Hr).
  by eapply run_calls_satisfy.
Qed.

Lemma approx_TRM_passes_the_previous_iterate_sample :
  calls_satisfy warm_start store_quiet
    (disentangle_approx_TRM sample_env (PInt 2%Z) ∅ store_quiet).
Proof.
  apply (approx_TRM_passes_the_previous_iterate sample_env (PInt 2%Z) ∅ store_quiet
           1 2 1 1).
  reflexivity.
Defined.

(** ** The wiring of the iterates and the manifold *)

(** X14: every iterate of a run is built for the caller's [theta] and
    [chi] with the driver's iterate class: the initial one at [U0], and the
    closure's at exactly the candidate [U] the engine passes in. *)
Theorem iterates_are_built_for_theta_and_chi env chi kw st l D1 D2 r :
  shape (theta_obj st) = [l; D1; D2; r] →
  calls_satisfy (wired ClsCG (theta_obj st) chi (identity_tensor D1 D2)) st
    (disentangle_CG env chi kw st)
  ∧ calls_satisfy (wired ClsCG (theta_obj st) chi (identity_tensor D1 D2)) st
      (disentangle_approx_CG env chi kw st)
  ∧ calls_satisfy (wired ClsTRM (theta_obj st) chi (identity_tensor D1 D2)) st
      (disentangle_TRM env chi kw st)
  ∧ calls_satisfy (wired ClsApproxTRM (theta_obj st) chi (identity_tensor D1 D2)) st
      (disentangle_approx_TRM env chi kw st).
Proof.
  intros Hshape. repeat split.
  - destruct (disentangle_CG_calls env chi kw st l D1 D2 r Hshape) as (evs & Hc & Hr).
    by eapply run_calls_satisfy.
  - destruct (disentangle_approx_CG_calls env chi kw st l D1 D2 r Hshape)
      as (evs & Hc & Hr).
    by eapply run_calls_satisfy.
  - destruct (disentangle_TRM_calls env chi kw st l D1 D2 r Hshape) as (evs & Hc & Hr).
    by eapply run_calls_satisfy.
  - destruct (disentangle_approx_TRM_calls env chi kw st l D1 D2 r Hshape)
      as (evs & Hc & Hr).
    by eapply run_calls_satisfy.
Qed.

Lemma iterates_are_built_for_theta_and_chi_sample :
  calls_satisfy (wired ClsCG (theta_obj store_quiet) (PInt 2%Z) (identity_tensor 2 1))
    store_quiet (disentangle_CG sample_env (PInt 2%Z) kw_tuned store_quiet)
  ∧ calls_satisfy (wired ClsCG (theta_obj store_quiet) (PInt 2%Z) (identity_tensor 2 1))
      store_quiet (disentangle_approx_CG sample_env (PInt 2%Z) kw_tuned store_quiet)
  ∧ calls_satisfy (wired ClsTRM (theta_obj store_quiet) (PInt 2%Z) (identity_tensor 2 1))
      store_quiet (disentangle_TRM sample_env (PInt 2%Z) kw_tuned store_quiet)
  ∧ calls_satisfy
      (wired ClsApproxTRM (theta_obj store_quiet) (PInt 2%Z) (identity_tensor 2 1))
      store_quiet (disentangle_approx_TRM sample_env (PInt 2%Z) kw_tuned store_quiet).
Proof.
  apply (iterates_are_built_for_theta_and_chi sample_env (PInt 2%Z) kw_tuned store_quiet
           1 2 1 1).
  reflexivity.
Defined.

Lemma manifold_event_matches D1 D2 :
  manifold_matches (identity_tensor D1 D2) (EvManifold (square_manifold D1 D2)).
Proof.
  destruct (identity_tensor_reshaped D1 D2) as (Hs & Hlen & _).
  split; [done|]. split; [symmetry; exact Hlen | done].
Qed.

Lemma optimizer_event_matches D1 D2 k c kwargs :
  manifold_matches (identity_tensor D1 D2) (EvOptimizer k (square_manifold D1 D2) c kwargs).
Proof. apply manifold_event_matches. Qed.

Ltac manifold_facts Hc Hr :=
  eapply run_calls_satisfy;
  [ exact Hc | exact Hr | apply manifold_event_matches | apply optimizer_event_matches
  | exact I | exact I ].

(** X10: the manifold every driver constructs, and hands to the optimizer,
    is the one of square matrices ([n = p]) with as many entries as [U0]
    has, under the shape of [U0]. *)
Theorem manifold_matches_the_initial_unitary env chi kw st l D1 D2 r :
  shape (theta_obj st) = [l; D1; D2; r] →
  initial_unitary D1 D2 = inr (identity_tensor D1 D2)
  ∧ calls_satisfy (manifold_matches (identity_tensor D1 D2)) st
      (disentangle_CG env chi kw st)
  ∧ calls_satisfy (manifold_matches (identity_tensor D1 D2)) st
      (disentangle_approx_CG env chi kw st)
  ∧ calls_satisfy (manifold_matches (identity_tensor D1 D2)) st
      (disentangle_TRM env chi kw st)
  ∧ calls_satisfy (manifold_matches (identity_tensor D1 D2)) st
      (disentangle_approx_TRM env chi kw st).
Proof.
  intros Hshape. split; [apply initial_unitary_ok|]. repeat split.
  - destruct (disentangle_CG_calls env chi kw st l D1 D2 r Hshape) as (evs & Hc & Hr).
    manifold_facts Hc Hr.
  - destruct (disentangle_approx_CG_calls env chi kw st l D1 D2 r Hshape)
      as (evs & Hc & Hr).
    manifold_facts Hc Hr.
  - destruct (disentangle_TRM_calls env chi kw st l D1 D2 r Hshape) as (evs & Hc & Hr).
    manifold_facts Hc Hr.
  - destruct (disentangle_approx_TRM_calls env chi kw st l D1 D2 r Hshape)
      as (evs & Hc & Hr).
    manifold_facts Hc Hr.
Qed.

Lemma manifold_matches_the_initial_unitary_sample :
  initial_unitary 2 1 = inr (identity_tensor 2 1)
  ∧ calls_satisfy (manifold_matches (identity_tensor 2 1)) store_quiet
      (disentangle_CG sample_env (PInt 2%Z) ∅ store_quiet)
  ∧ calls_satisfy (manifold_matches (identity_tensor 2 1)) store_quiet
      (disentangle_approx_CG sample_env (PInt 2%Z) ∅ store_quiet)
  ∧ calls_satisfy (manifold_matches (identity_tensor 2 1)) store_quiet
      (disentangle_TRM sample_env (PInt 2%Z) ∅ store_quiet)
  ∧ calls_satisfy (manifold_matches (identity_tensor 2 1)) store_quiet
      (disentangle_approx_TRM sample_env (PInt 2%Z) ∅ store_quiet).
Proof.
  apply (manifold_matches_the_initial_unitary sample_env (PInt 2%Z) ∅ store_quiet 1 2 1 1).
  reflexivity.
Defined.

(** ** The order of the calls *)




(** ** The initial unitary as a four-index tensor *)

(** X1: read with four indices, [U0] is a product of two Kronecker
    deltas: [U0[a, b, c, d]] is 1 when [a = c] and [b = d] and 0
    otherwise. *)
Theorem initial_unitary_is_a_kronecker_delta D1 D2 a b c d :
  a < D1 → b < D2 → c < D1 → d < D2 →
  ∃ U0, initial_unitary D1 D2 = inr U0
    ∧ shape U0 = [D1; D2; D1; D2]
    ∧ data U0 !! flat_index D1 D2 a b c d
      = Some (Complex (if decide (a = c ∧ b = d) then 1%float else 0%float) 0%float).
Proof.
  intros Ha Hb Hc Hd. exists (identity_tensor D1 D2).
  split; [apply initial_unitary_ok|]. split; [done|]. by apply identity_tensor_entry.
Qed.

Lemma initial_unitary_is_a_kronecker_delta_3x2 :
  ∃ U0, initial_unitary 3 2 = inr U0
    ∧ shape U0 = [3; 2; 3; 2]
    ∧ data U0 !! flat_index 3 2 2 1 2 0
      = Some (Complex (if decide (2 = 2 ∧ 1 = 0) then 1%float else 0%float) 0%float).
Proof. apply (initial_unitary_is_a_kronecker_delta 3 2 2 1 2 0); lia. Defined.

(** ** Malformed input through the dispatchers *)

(** X9: with a supported method (or none given), both dispatchers raise
    [ValueError] on a [theta] that does not have four axes, and leave the
    store as it was. *)
Theorem dispatchers_need_four_axes env chi method kw st :
  length (shape (theta_obj st)) ≠ 4 →
  method = Omitted ∨ method = Given "trm" ∨ method = Given "cg" →
  disentangle env chi method kw st = (inl ValueError, st)
  ∧ disentangle_approx env chi method kw st = (inl ValueError, st).
Proof.
  intros Hlen Hmethod. pose proof (@unpack_shape_fails pyval st Hlen) as Hunpack.
  destruct Hmethod as [->|[->| ->]]; unfold disentangle, disentangle_approx;
    cbn [String.eqb Ascii.eqb Bool.eqb]; unfold_drivers; by rewrite !Hunpack.
Qed.

Lemma dispatchers_need_four_axes_rank3 :
  disentangle sample_env (PInt 1%Z) (Given "cg") ∅ store_rank3 = (inl ValueError, store_rank3)
  ∧ disentangle_approx sample_env (PInt 1%Z) (Given "cg") ∅ store_rank3
    = (inl ValueError, store_rank3).
Proof.
  apply (dispatchers_need_four_axes sample_env (PInt 1%Z) (Given "cg") ∅ store_rank3).
  - vm_compute. lia.
  - right. right. reflexivity.
Defined.

(** ** Recording happens after the optimization *)

Lemma record_CG_quiet env n r1 r2 info st :
  info_flag env st = false → record_CG env false n r1 r2 info st = (inr tt, st).
Proof. intros Ha. rewrite record_CG_unfold, Ha. reflexivity. Qed.

Lemma record_TRM_quiet env n info st :
  info_flag env st = false → record_TRM env false n info st = (inr tt, st).
Proof. intros Ha. rewrite record_TRM_unfold, Ha. reflexivity. Qed.

Ltac changed_after_optimize Hrun Hchanged quiet :=
  rewrite Hrun in Hchanged;
  match type of Hchanged with
  | context [ConjugateGradientsOptimizer ?env ?m ?c ?kw] =>
      destruct (ConjugateGradientsOptimizer env m c kw) as [e|opt]
  | context [TrustRegionOptimizer ?env ?m ?c ?kw] =>
      destruct (TrustRegionOptimizer env m c kw) as [e|opt]
  end;
  [ by destruct Hchanged | ];
  let Hopt := fresh "Hopt" in
  match type of Hchanged with
  | context [CG_optimize ?env ?o ?i ?l] =>
      destruct (CG_optimize env o i l) as [e|[[[[iterate n] a] b] info]] eqn:Hopt
  | context [TRM_optimize ?env ?o ?i ?l ?w] =>
      destruct (TRM_optimize env o i l w) as [e|[[iterate n] info]] eqn:Hopt
  end;
  [ by destruct Hchanged | ];
  split; [ | by repeat eexists ];
  match goal with
  | |- info_flag ?env ?st = true ∨ log_flag ?env ?st = true =>
      destruct (info_flag env st) eqn:Ha; [ by left | ];
      destruct (log_flag env st) eqn:Hb; [ by right | ];
      rewrite quiet in Hchanged by exact Ha; by destruct Hchanged
  end.

(** X2: the conjugate-gradients drivers write to [debug_dict] only after
    the optimization: when the dict after the call differs from the dict
    before, one of the two debug-level predicates held and [optimize] had
    returned its tuple.  A run whose engine raises leaves the dict alone. *)
Theorem CG_drivers_record_only_after_optimize env chi kw st :
  debug_obj (disentangle_CG env chi kw st).2 ≠ debug_obj st
  ∨ debug_obj (disentangle_approx_CG env chi kw st).2 ≠ debug_obj st →
  (info_flag env st = true ∨ log_flag env st = true)
  ∧ ∃ opt init v n r1 r2 info,
      CG_optimize env opt init (log_flag env st) = inr (v, n, r1, r2, info).
Proof.
  intros [H|H].
  - destruct (decide (length (shape (theta_obj st)) = 4)) as [Hlen|Hlen].
    + destruct (unpack_shape_ok st Hlen) as (l & D1 & D2 & r & Hshape).
      changed_after_optimize (disentangle_CG_run env chi kw st l D1 D2 r Hshape) H
        record_CG_quiet.
    + unfold disentangle_CG in H. rewrite (@unpack_shape_fails pyval st Hlen) in H.
      by destruct H.
  - destruct (decide (length (shape (theta_obj st)) = 4)) as [Hlen|Hlen].
    + destruct (unpack_shape_ok st Hlen) as (l & D1 & D2 & r & Hshape).
      changed_after_optimize (disentangle_approx_CG_run env chi kw st l D1 D2 r Hshape) H
        record_CG_quiet.
    + unfold disentangle_approx_CG in H. rewrite (@unpack_shape_fails pyval st Hlen) in H.
      by destruct H.
Qed.

(** X3: the same for the trust-region drivers. *)
Theorem TRM_drivers_record_only_after_optimize env chi kw st :
  debug_obj (disentangle_TRM env chi kw st).2 ≠ debug_obj st
  ∨ debug_obj (disentangle_approx_TRM env chi kw st).2 ≠ debug_obj st →
  (info_flag env st = true ∨ log_flag env st = true)
  ∧ ∃ opt init v n info,
      TRM_optimize env opt init (log_flag env st) false = inr (v, n, info).
Proof.
  intros [H|H].
  - destruct (decide (length (shape (theta_obj st)) = 4)) as [Hlen|Hlen].
    + destruct (unpack_shape_ok st Hlen) as (l & D1 & D2 & r & Hshape).
      changed_after_optimize (disentangle_TRM_run env chi kw st l D1 D2 r Hshape) H
        record_TRM_quiet.
    + unfold disentangle_TRM in H. rewrite (@unpack_shape_fails pyval st Hlen) in H.
      by destruct H.
  - destruct (decide (length (shape (theta_obj st)) = 4)) as [Hlen|Hlen].
    + destruct (unpack_shape_ok st Hlen) as (l & D1 & D2 & r & Hshape).
      changed_after_optimize (disentangle_approx_TRM_run env chi kw st l D1 D2 r Hshape) H
        record_TRM_quiet.
    + unfold disentangle_approx_TRM in H.
      rewrite (@unpack_shape_fails pyval st Hlen) in H. by destruct H.
Qed.

Lemma CG_drivers_record_only_after_optimize_sample :
  (info_flag sample_env store_logging = true ∨ log_flag sample_env store_logging = true)
  ∧ ∃ opt init v n r1 r2 info,
      CG_optimize sample_env opt init (log_flag sample_env store_logging)
      = inr (v, n, r1, r2, info).
Proof.
  apply (CG_drivers_record_only_after_optimize sample_env (PInt 1%Z) ∅ store_logging).
  left. intros H.
  apply (f_equal (λ o : option (gmap string pyval), o ≫= (.!! "N_iters_disentangler"))) in H.
  vm_compute in H. discriminate H.
Defined.

Lemma TRM_drivers_record_only_after_optimize_sample :
  (info_flag sample_env store_logging = true ∨ log_flag sample_env store_logging = true)
  ∧ ∃ opt init v n info,
      TRM_optimize sample_env opt init (log_flag sample_env store_logging) false
      = inr (v, n, info).
Proof.
  apply (TRM_drivers_record_only_after_optimize sample_env (PInt 1%Z) ∅ store_logging).
  right. intros H.
  apply (f_equal (λ o : option (gmap string pyval), o ≫= (.!! "disentangler_deltas"))) in H.
  vm_compute in H. discriminate H.
Defined.

(** ** The returned value, on the sample engines *)

Lemma CG_drivers_return_first_component_sample :
  ∃ opt init log n r1 r2 info,
    CG_optimize sample_env opt init log = inr (PIterate sample_final_CG, n, r1, r2, info).
Proof.
  apply (CG_drivers_return_first_component sample_env (PInt 1%Z) ∅ store_quiet
           (PIterate sample_final_CG)).
  left. vm_compute. reflexivity.
Defined.

Lemma TRM_drivers_return_first_component_sample :
  ∃ opt init log n info,
    TRM_optimize sample_env opt init log false = inr (PIterate sample_final_TRM, n, info).
Proof.
  apply (TRM_drivers_return_first_component sample_env (PInt 1%Z) ∅ store_quiet
           (PIterate sample_final_TRM)).
  left. vm_compute. reflexivity.
Defined.

(** * The runs over their plans *)







(** * Where the optimization starts *)



(** * What a driver returns, for every engine *)



(** With engines whose [optimize] returns the array first, the same
    drivers return that array, of the shape of [U0]. *)
Example drivers_return_the_array_of_an_array_engine :
  ∃ U, (disentangle_CG array_env (PInt 1%Z) ∅ store_quiet).1 = inr (PArray U)
       ∧ (disentangle_approx_TRM array_env (PInt 1%Z) ∅ store_quiet).1 = inr (PArray U)
       ∧ shape U = [2; 1; 2; 1].
Proof.
  exists (identity_tensor 2 1). repeat split; vm_compute; reflexivity.
Qed.

(** * The recording step, exactly *)











(** * The debug record of a run *)




(** * The input tensor, with collaborators that can reach it *)

Lemma effects_of_leave_theta_alone env : leave_theta_alone (effects_of env).
Proof.
  repeat split; intros; intros st; try reflexivity.
  apply same_theta_append.
Qed.

(** With collaborators that are functions of their arguments, the drivers
    over [Effects] are the drivers of the first part. *)
Lemma drivers_with_pure_collaborators env chi method kw :
  disentangle_CG_in (effects_of env) chi kw = disentangle_CG env chi kw
  ∧ disentangle_approx_CG_in (effects_of env) chi kw = disentangle_approx_CG env chi kw
  ∧ disentangle_TRM_in (effects_of env) chi kw = disentangle_TRM env chi kw
  ∧ disentangle_approx_TRM_in (effects_of env) chi kw = disentangle_approx_TRM env chi kw
  ∧ disentangle_in (effects_of env) chi method kw = disentangle env chi method kw
  ∧ disentangle_approx_in (effects_of env) chi method kw
    = disentangle_approx env chi method kw.
Proof. repeat split. Qed.


Section ThetaWithEffects.

Variable E : Effects.
Hypothesis HE : leave_theta_alone E.






End ThetaWithEffects.



(** The condition is needed: with an engine whose [optimize] writes to the
    array it was handed, the caller's [theta] is not what it was. *)
Example a_collaborator_can_overwrite_theta :
  theta_obj (disentangle_CG_in overwriting_effects (PInt 1%Z) ∅ store_quiet).2
  ≠ theta_obj store_quiet.
Proof.
  intros H.
  apply (f_equal (λ a : ndarray complex128,
                    match data a with
                    | c :: _ => PrimFloat.eqb (re c) 1%float
                    | [] => false
                    end)) in H.
  vm_compute in H. discriminate H.
Qed.
